(** * spotify-mcp: the SSE tool server and the SSE chat client

    A shallow embedding of [src/sse-server.py] (the five MCP tools
    [playback], [search], [queue], [get_info], [playlist]) and of
    [src/sse_client.py] ([SpotifyMCPClient.process_query]).

    Python code that talks to the outside world (the Spotify client, the
    MCP session, the completion service) is modelled in a small monad
    that records every interaction as an event and lets a computation
    end either with a value or with a raised exception.  The outside
    world itself is a parameter: an oracle that answers a request after
    having seen the history of earlier events. *)

From Stdlib Require Import String Ascii List ZArith Bool Lia.
Import ListNotations.
Open Scope string_scope.

(* ================================================================== *)
(** ** Python values *)
(* ================================================================== *)

(** The values that travel through the tools: what JSON can carry, plus
    [PObject] for any other Python object (a float, an instance of a
    class), of which only the class name, the truth value and the text
    that [str] gives are kept. *)
#[local] Set Warnings "-register-all".

Inductive pyval : Type :=
| PNone
| PBool (b : bool)
| PInt (z : Z)
| PStr (s : string)
| PList (items : list pyval)
| PDict (entries : list (string * pyval))
| PObject (cls : string) (truthy : bool) (shown : string).

(** Python's truth value testing, as used by [if x:] and [not x]. *)
Definition py_truthy (v : pyval) : bool :=
  match v with
  | PNone => false
  | PBool b => b
  | PInt z => negb (Z.eqb z 0)
  | PStr s => negb (String.eqb s EmptyString)
  | PList items => match items with [] => false | _ => true end
  | PDict entries => match entries with [] => false | _ => true end
  | PObject _ t _ => t
  end.

Definition py_not (v : pyval) : bool := negb (py_truthy v).

(** [type(v).__name__] *)
Definition py_type_name (v : pyval) : string :=
  match v with
  | PNone => "NoneType"
  | PBool _ => "bool"
  | PInt _ => "int"
  | PStr _ => "str"
  | PList _ => "list"
  | PDict _ => "dict"
  | PObject cls _ _ => cls
  end.

(** Truth value of an [Optional[str]] attribute such as [message.content]. *)
Definition str_truthy (o : option string) : bool :=
  match o with
  | Some s => negb (String.eqb s EmptyString)
  | None => false
  end.

(** [x or ""] for an [Optional[str]]. *)
Definition or_empty (o : option string) : string :=
  match o with
  | Some s => s
  | None => EmptyString
  end.

(* ================================================================== *)
(** ** Exceptions *)
(* ================================================================== *)

(** Instances of Python's [Exception].  The only class the source tells
    apart is [json.JSONDecodeError]; every other class is kept by name.
    [exc_str e] is [str(e)]. *)
Inductive exc_class : Type :=
| JSONDecodeError
| ExceptionClass (name : string).

Record exn : Type := Exc { exc_cls : exc_class; exc_str : string }.

Definition result (A : Type) : Type := (A + exn)%type.

Definition is_JSONDecodeError (e : exn) : bool :=
  match exc_cls e with
  | JSONDecodeError => true
  | ExceptionClass _ => false
  end.

Definition AttributeError (msg : string) : exn :=
  Exc (ExceptionClass "AttributeError") msg.

(* ================================================================== *)
(** ** Computations that interact and may raise *)
(* ================================================================== *)

Module Run.

(** A computation reads the history of events so far and gives its
    outcome together with the events it emitted itself, oldest first. *)
Definition M (E A : Type) : Type := list E -> result A * list E.

Definition ret {E A} (a : A) : M E A := fun _ => (inl a, []).

Definition bind {E A B} (m : M E A) (f : A -> M E B) : M E B :=
  fun h =>
    match m h with
    | (inl a, evs) =>
        match f a (h ++ evs)%list with
        | (r, evs') => (r, (evs ++ evs')%list)
        end
    | (inr e, evs) => (inr e, evs)
    end.

(** A pure step that may raise. *)
Definition lift {E A} (r : result A) : M E A := fun _ => (r, []).

Definition emit {E} (ev : E) : M E unit := fun _ => (inl tt, [ev]).

(** [try: m  except Exception as e: handler e] *)
Definition try_except {E A} (m : M E A) (handler : exn -> M E A) : M E A :=
  fun h =>
    match m h with
    | (inl a, evs) => (inl a, evs)
    | (inr e, evs) =>
        match handler e (h ++ evs)%list with
        | (r, evs') => (r, (evs ++ evs')%list)
        end
    end.

(** [try: m  except C: ...] for one class [C]: the exceptions of that
    class are handed to the caller as [inr], every other one goes on. *)
Definition catching {E A} (is_C : exn -> bool) (m : M E A) : M E (A + exn) :=
  fun h =>
    match m h with
    | (inl a, evs) => (inl (inl a), evs)
    | (inr e, evs) => if is_C e then (inl (inr e), evs) else (inr e, evs)
    end.

End Run.

Import Run.

Declare Scope run_scope.
Delimit Scope run_scope with run.
Notation "x <- m ;; k" := (bind m (fun x => k))
  (at level 61, m at next level, right associativity) : run_scope.
Notation "m ;; k" := (bind m (fun _ => k))
  (at level 61, right associativity) : run_scope.
Open Scope run_scope.

(* ================================================================== *)
(** ** Text helpers *)
(* ================================================================== *)

(** The line feed of ["\n".join(...)]. *)
Definition nl : string := String (ascii_of_nat 10) EmptyString.

(** [s.startswith(p)] *)
Fixpoint startswith (s p : string) {struct p} : bool :=
  match p with
  | EmptyString => true
  | String a p' =>
      match s with
      | EmptyString => false
      | String b s' => Ascii.eqb a b && startswith s' p'
      end
  end.

(** [needle in hay] on Python strings. *)
Fixpoint contains (needle hay : string) : bool :=
  if startswith hay needle then true
  else match hay with
       | EmptyString => false
       | String _ hay' => contains needle hay'
       end.

(** [d.get(key, default)] on the entries of a dict. *)
Fixpoint dict_get (entries : list (string * pyval)) (key : string) (default : pyval) : pyval :=
  match entries with
  | [] => default
  | (k, v) :: rest => if String.eqb k key then v else dict_get rest key default
  end.

(** [obj.get(key, default)]: only a dict has the method. *)
Definition py_get (obj : pyval) (key : string) (default : pyval) : result pyval :=
  match obj with
  | PDict entries => inl (dict_get entries key default)
  | _ => inr (AttributeError ("'" ++ py_type_name obj ++ "' object has no attribute 'get'"))
  end.

(** The functions of Python and of its [json] module that the sources
    call and that are not modelled here: they are parameters of every
    definition that uses them. *)
Class PyLib : Type := {
  (** [str(v)], as an f-string formats a value *)
  py_str : pyval -> string;
  (** [json.dumps(v, indent=2)]; it raises on what JSON cannot carry *)
  json_dumps : pyval -> result string;
  (** [json.loads(s)] *)
  json_loads : string -> result pyval
}.

(* ================================================================== *)
(** ** The tool server ([src/sse-server.py]) *)
(* ================================================================== *)

Module Server.

(** The operations of [spotify_api.Client] the tools call, with their
    arguments. *)
Inductive backend_call : Type :=
| Get_current_track
| Start_playback (spotify_uri : pyval)
| Pause_playback
| Skip_track (n : pyval)
| Search_items (query qtype : string) (limit : Z)
| Add_to_queue (track_id : pyval)
| Get_queue
| Get_item_info (item_uri : string)
| Get_current_user_playlists
| Get_playlist_tracks (playlist_id : pyval)
| Add_tracks_to_playlist (playlist_id track_ids : pyval)
| Remove_tracks_from_playlist (playlist_id track_ids : pyval)
| Change_playlist_details (playlist_id name description : pyval).

Inductive log_level : Type := INFO | ERROR.

(** What a tool does to the outside: a line on stderr through [logger],
    or a call of the Spotify client together with its outcome. *)
Inductive event : Type :=
| Log (level : log_level) (message : string)
| Backend (call : backend_call) (outcome : result pyval).

(** The calls of the Spotify client among some events. *)
Fixpoint backend_calls (evs : list event) : list backend_call :=
  match evs with
  | [] => []
  | Log _ _ :: rest => backend_calls rest
  | Backend c _ :: rest => c :: backend_calls rest
  end.

(** [spotify_client], the instance of [spotify_api.Client] the tools
    share: the outcome of an operation, given what happened before it. *)
Class SpotifyClient : Type := {
  spotify_client : list event -> backend_call -> result pyval
}.

Section Tools.

Context `{PyLib} `{SpotifyClient}.

Definition T : Type -> Type := M event.

Definition logger_info (message : string) : T unit := emit (Log INFO message).
Definition logger_error (message : string) : T unit := emit (Log ERROR message).

Definition call (c : backend_call) : T pyval :=
  fun h => let r := spotify_client h c in (r, [Backend c r]).

(** The handler every tool ends with:
    [except Exception as e: logger.error(f"<what> error: {str(e)}"); return f"Error: {str(e)}"] *)
Definition report (what : string) (e : exn) : T string :=
  logger_error (what ++ " error: " ++ exc_str e);;
  ret ("Error: " ++ exc_str e).

(** *** playback *)

Definition playback_try (action : string) (spotify_uri num_skips : pyval) : T string :=
  if action =? "get" then
    logger_info "Attempting to get current track";;
    curr_track <- call Get_current_track;;
    if py_truthy curr_track then
      track_name <- lift (py_get curr_track "name" (PStr "Unknown"));;
      logger_info ("Current track retrieved: " ++ py_str track_name);;
      lift (json_dumps curr_track)
    else
      logger_info "No track currently playing";;
      ret "No track playing."
  else if action =? "start" then
    logger_info ("Starting playback with uri: " ++ py_str spotify_uri);;
    call (Start_playback spotify_uri);;
    logger_info "Playback started successfully";;
    ret "Playback starting."
  else if action =? "pause" then
    logger_info "Attempting to pause playback";;
    call Pause_playback;;
    logger_info "Playback paused successfully";;
    ret "Playback paused."
  else if action =? "skip" then
    logger_info ("Skipping " ++ py_str num_skips ++ " tracks.");;
    call (Skip_track num_skips);;
    ret "Skipped to next track."
  else
    ret ("Unknown action: " ++ action ++ ". Supported actions are: get, start, pause, skip.").

Definition playback (action : string) (spotify_uri num_skips : pyval) : T string :=
  try_except (playback_try action spotify_uri num_skips) (report "Playback").

(** *** search *)

Definition search_try (query qtype : string) (limit : Z) : T string :=
  logger_info ("Performing search: " ++ query ++ ", type: " ++ qtype
               ++ ", limit: " ++ py_str (PInt limit));;
  search_results <- call (Search_items query qtype limit);;
  logger_info "Search completed successfully.";;
  lift (json_dumps search_results).

Definition search (query qtype : string) (limit : Z) : T string :=
  try_except (search_try query qtype limit) (report "Search").

(** *** queue *)

Definition queue_try (action : string) (track_id : pyval) : T string :=
  logger_info ("Queue operation: " ++ action);;
  if action =? "add" then
    if py_not track_id then
      logger_error "track_id is required for add to queue.";;
      ret "track_id is required for add action"
    else
      call (Add_to_queue track_id);;
      ret "Track added to queue."
  else if action =? "get" then
    queue_data <- call Get_queue;;
    lift (json_dumps queue_data)
  else
    ret ("Unknown queue action: " ++ action ++ ". Supported actions are: add, get.").

Definition queue (action : string) (track_id : pyval) : T string :=
  try_except (queue_try action track_id) (report "Queue").

(** *** get_info *)

Definition get_info_try (item_uri : string) : T string :=
  logger_info ("Getting item info for: " ++ item_uri);;
  item_info <- call (Get_item_info item_uri);;
  lift (json_dumps item_info).

Definition get_info (item_uri : string) : T string :=
  try_except (get_info_try item_uri) (report "GetInfo").

(** *** playlist *)

(** [json.loads(track_ids) if isinstance(track_ids, str) else track_ids],
    inside its own [try ... except json.JSONDecodeError]. *)
Definition decode_track_ids (track_ids : pyval) : T (pyval + exn) :=
  catching is_JSONDecodeError
    (match track_ids with
     | PStr s => lift (json_loads s)
     | _ => ret track_ids
     end).

Definition playlist_try (action : string)
    (playlist_id track_ids name description : pyval) : T string :=
  logger_info ("Playlist operation: " ++ action);;
  if action =? "get" then
    logger_info "Getting current user's playlists";;
    playlists <- call Get_current_user_playlists;;
    lift (json_dumps playlists)
  else if action =? "get_tracks" then
    if py_not playlist_id then
      logger_error "playlist_id is required for get_tracks action.";;
      ret "playlist_id is required for get_tracks action."
    else
      logger_info ("Getting tracks in playlist: " ++ py_str playlist_id);;
      tracks <- call (Get_playlist_tracks playlist_id);;
      lift (json_dumps tracks)
  else if action =? "add_tracks" then
    if py_not playlist_id || py_not track_ids then
      logger_error "playlist_id and track_ids are required for add_tracks action.";;
      ret "playlist_id and track_ids are required for add_tracks action."
    else
      decoded <- decode_track_ids track_ids;;
      match decoded with
      | inr _ =>
          logger_error "track_ids must be a valid JSON array.";;
          ret "Error: track_ids must be a valid JSON array."
      | inl track_ids_list =>
          logger_info ("Adding tracks to playlist: " ++ py_str playlist_id);;
          call (Add_tracks_to_playlist playlist_id track_ids_list);;
          ret "Tracks added to playlist."
      end
  else if action =? "remove_tracks" then
    if py_not playlist_id || py_not track_ids then
      logger_error "playlist_id and track_ids are required for remove_tracks action.";;
      ret "playlist_id and track_ids are required for remove_tracks action."
    else
      decoded <- decode_track_ids track_ids;;
      match decoded with
      | inr _ =>
          logger_error "track_ids must be a valid JSON array.";;
          ret "Error: track_ids must be a valid JSON array."
      | inl track_ids_list =>
          logger_info ("Removing tracks from playlist: " ++ py_str playlist_id);;
          call (Remove_tracks_from_playlist playlist_id track_ids_list);;
          ret "Tracks removed from playlist."
      end
  else if action =? "change_details" then
    if py_not playlist_id then
      logger_error "playlist_id is required for change_details action.";;
      ret "playlist_id is required for change_details action."
    else if py_not name && py_not description then
      logger_error "At least one of name or description is required.";;
      ret "At least one of name or description is required."
    else
      logger_info ("Changing playlist details: " ++ py_str playlist_id);;
      call (Change_playlist_details playlist_id name description);;
      ret "Playlist details changed."
  else
    ret ("Unknown playlist action: " ++ action
         ++ ". Supported actions are: get, get_tracks, add_tracks, remove_tracks, change_details.").

Definition playlist (action : string)
    (playlist_id track_ids name description : pyval) : T string :=
  try_except (playlist_try action playlist_id track_ids name description)
             (report "Playlist").

(** *** The registry *)

(** A call of one of the five tools registered with [@mcp.tool()],
    with the arguments bound to the parameters of its function. *)
Inductive tool_call : Type :=
| Call_playback (action : string) (spotify_uri num_skips : pyval)
| Call_search (query qtype : string) (limit : Z)
| Call_queue (action : string) (track_id : pyval)
| Call_get_info (item_uri : string)
| Call_playlist (action : string) (playlist_id track_ids name description : pyval).

Definition run_tool (c : tool_call) : T string :=
  match c with
  | Call_playback action spotify_uri num_skips => playback action spotify_uri num_skips
  | Call_search query qtype limit => search query qtype limit
  | Call_queue action track_id => queue action track_id
  | Call_get_info item_uri => get_info item_uri
  | Call_playlist action playlist_id track_ids name description =>
      playlist action playlist_id track_ids name description
  end.

(** The [try] block of the called tool. *)
Definition tool_try (c : tool_call) : T string :=
  match c with
  | Call_playback action spotify_uri num_skips => playback_try action spotify_uri num_skips
  | Call_search query qtype limit => search_try query qtype limit
  | Call_queue action track_id => queue_try action track_id
  | Call_get_info item_uri => get_info_try item_uri
  | Call_playlist action playlist_id track_ids name description =>
      playlist_try action playlist_id track_ids name description
  end.

(** The [action] argument of a call, for the tools that take one. *)
Definition action_of (c : tool_call) : option string :=
  match c with
  | Call_playback action _ _ => Some action
  | Call_queue action _ => Some action
  | Call_playlist action _ _ _ _ => Some action
  | Call_search _ _ _ | Call_get_info _ => None
  end.

(** The actions that the [match action:] of the called tool names. *)
Definition supported_actions (c : tool_call) : list string :=
  match c with
  | Call_playback _ _ _ => ["get"; "start"; "pause"; "skip"]
  | Call_queue _ _ => ["add"; "get"]
  | Call_playlist _ _ _ _ _ =>
      ["get"; "get_tracks"; "add_tracks"; "remove_tracks"; "change_details"]
  | Call_search _ _ _ | Call_get_info _ => []
  end.

(** A run that ends with a text naming [argument] as required and that
    never called the Spotify client. *)
Definition rejects_missing (argument : string) (run : result string * list event) : Prop :=
  exists text,
    fst run = inl text
    /\ contains argument text = true
    /\ contains "required" text = true
    /\ backend_calls (snd run) = [].

(** A run that called the Spotify client exactly once, with [c], and
    that ends with the text [done] when that call returned. *)
Definition forwards (c : backend_call) (done : string)
    (run : result string * list event) : Prop :=
  backend_calls (snd run) = [c]
  /\ (forall out, In (Backend c (inl out)) (snd run) -> fst run = inl done).

(** A run that ends with [text] and never called the Spotify client. *)
Definition refuses (text : string) (run : result string * list event) : Prop :=
  fst run = inl text /\ backend_calls (snd run) = [].

(** [isinstance(v, list)] *)
Definition is_list (v : pyval) : bool :=
  match v with
  | PList _ => true
  | _ => false
  end.

End Tools.

(** [propagates m]: a call of the Spotify client that raised inside [m]
    makes [m] raise that very exception. *)
Definition propagates {A} (m : T A) : Prop :=
  forall h call e, In (Backend call (inr e)) (snd (m h)) -> fst (m h) = inr e.

End Server.

(* ================================================================== *)
(** ** The chat client ([src/sse_client.py]) *)
(* ================================================================== *)

Module Client.

(** A turn of the conversation: the dict [{"role": ..., "content": ...}]. *)
Record turn : Type := Turn { role : string; content : string }.

(** A tool as [session.list_tools()] describes it. *)
Record tool : Type := Tool {
  tool_name : string;
  tool_description : pyval;
  tool_inputSchema : pyval
}.

(** What the completion service answers. *)
Record function_call : Type := Function { fn_name : string; fn_arguments : string }.
Record tool_call : Type := ToolCall { tc_function : function_call }.
Record llm_message : Type := Message {
  msg_content : option string;
  (** [None] also stands for a message without the attribute *)
  msg_tool_calls : option (list tool_call)
}.
Record choice : Type := Choice { choice_message : llm_message }.
Record response : Type := Response { choices : list choice }.

(** The keyword arguments of [completion(...)]; [tools] is [None] when
    the call passes none. *)
Record completion_request : Type := Request {
  req_model : string;
  req_messages : list turn;
  req_tools : option (list pyval);
  req_max_tokens : Z
}.

(** The result of [session.call_tool]: a list of content items, of
    which an item either has a [text] or is shown through [str]. *)
Inductive content_item : Type :=
| TextContent (text : string)
| OtherContent (shown : string).

Record call_tool_result : Type := CallToolResult { result_content : list content_item }.

(** The interactions of [process_query], each with its outcome. *)
Inductive event : Type :=
| List_tools (outcome : result (list tool))
| Completion (request : completion_request) (outcome : result response)
| Call_tool (name : string) (arguments : pyval) (outcome : result call_tool_result).

(** [self.session], the MCP client session. *)
Class Session : Type := {
  session_list_tools : list event -> result (list tool);
  session_call_tool : list event -> string -> pyval -> result call_tool_result
}.

(** [litellm.completion] *)
Class CompletionService : Type := {
  completion : list event -> completion_request -> result response
}.

(** The local variables of [process_query] that the loops update. *)
Record locals : Type := Locals {
  messages : list turn;
  tool_results : list (string * call_tool_result);
  final_text : list string
}.

Section ProcessQuery.

Context `{PyLib} `{Session} `{CompletionService}.

Definition C : Type -> Type := M event.

Definition list_tools : C (list tool) :=
  fun h => let r := session_list_tools h in (r, [List_tools r]).

Definition call_tool (name : string) (arguments : pyval) : C call_tool_result :=
  fun h => let r := session_call_tool h name arguments in (r, [Call_tool name arguments r]).

Definition complete (request : completion_request) : C response :=
  fun h => let r := completion h request in (r, [Completion request r]).

(** [self.model], set once in [__init__] *)
Definition model : string := "gemini/gemini-2.5-flash".

(** An entry of [available_tools]. *)
Definition available_tool (t : tool) : pyval :=
  PDict [("type", PStr "function");
         ("function", PDict [("name", PStr (tool_name t));
                             ("description", tool_description t);
                             ("parameters", tool_inputSchema t)])].

(** "Extract text content from MCP response" *)
Definition tool_response_text (result : call_tool_result) : string :=
  match result_content result with
  | TextContent text :: _ => text
  | OtherContent shown :: _ => shown
  | [] => "[]"
  end.

(** [f"[Calling tool {tool_name} with args {tool_args}]"] *)
Definition calling_line (tool_name : string) (tool_args : pyval) : string :=
  "[Calling tool " ++ tool_name ++ " with args " ++ py_str tool_args ++ "]".

(** The text of the first choice of a response, when there is one and
    it is not empty:
    [response.choices and response.choices[0].message.content] *)
Definition first_content (r : response) : list string :=
  match choices r with
  | ch :: _ =>
      if str_truthy (msg_content (choice_message ch))
      then [or_empty (msg_content (choice_message ch))]
      else []
  | [] => []
  end.

(** The body of [for tool_call in message.tool_calls:]. *)
Definition dispatch (message : llm_message) (tc : tool_call) (st : locals) : C locals :=
  let tool_name := fn_name (tc_function tc) in
  tool_args <- lift (json_loads (fn_arguments (tc_function tc)));;
  result <- call_tool tool_name tool_args;;
  let tool_results' := (tool_results st ++ [(tool_name, result)])%list in
  let final_text' := (final_text st ++ [calling_line tool_name tool_args])%list in
  let messages' :=
    (messages st ++ [Turn "assistant" (or_empty (msg_content message));
                     Turn "user" (tool_response_text result)])%list in
  response <- complete (Request model messages' None 1000);;
  ret (Locals messages' tool_results' (final_text' ++ first_content response)%list).

Fixpoint dispatch_all (message : llm_message) (tcs : list tool_call) (st : locals) : C locals :=
  match tcs with
  | [] => ret st
  | tc :: rest =>
      st' <- dispatch message tc st;;
      dispatch_all message rest st'
  end.

(** The body of [for choice in response.choices:]. *)
Definition visit_choice (ch : choice) (st : locals) : C locals :=
  let message := choice_message ch in
  let st1 :=
    if str_truthy (msg_content message)
    then Locals (messages st) (tool_results st)
                (final_text st ++ [or_empty (msg_content message)])%list
    else st in
  match msg_tool_calls message with
  | Some tcs => dispatch_all message tcs st1
  | None => ret st1
  end.

Fixpoint visit_choices (chs : list choice) (st : locals) : C locals :=
  match chs with
  | [] => ret st
  | ch :: rest =>
      st' <- visit_choice ch st;;
      visit_choices rest st'
  end.

(** The [try] block of [process_query]. *)
Definition process_query_try (messages0 : list turn) (available_tools : list pyval) : C string :=
  response <- complete (Request model messages0 (Some available_tools) 1000);;
  st <- visit_choices (choices response) (Locals messages0 [] []);;
  ret (String.concat nl (final_text st)).

Definition process_query (query : string) : C string :=
  let messages0 := [Turn "user" query] in
  response <- list_tools;;
  let available_tools := map available_tool response in
  try_except (process_query_try messages0 available_tools)
             (fun e => ret ("Error processing query: " ++ exc_str e)).

(** *** Reading a run of [process_query] *)

(** The text of a message, when it has one that is not empty. *)
Definition own_content (m : llm_message) : list string :=
  if str_truthy (msg_content m) then [or_empty (msg_content m)] else [].

Definition requested_by (m : llm_message) : list tool_call :=
  match msg_tool_calls m with
  | Some tcs => tcs
  | None => []
  end.

(** The tool calls a response asks for, each with the message that
    asks for it, choice after choice. *)
Definition requested (r : response) : list (llm_message * tool_call) :=
  flat_map (fun ch => map (pair (choice_message ch)) (requested_by (choice_message ch)))
           (choices r).

(** [rounds before calls evs after]: the events [evs] are, for each of
    the [calls] in turn, the call of the tool with the decoded
    arguments and then at once a request to the completion service,
    without tools, on the conversation so far extended by two turns: the
    text of the asking message as the assistant, the text of the tool
    result as the user.  The conversation goes from [before] to
    [after]. *)
Inductive rounds : list turn -> list (llm_message * tool_call) -> list event
                   -> list turn -> Prop :=
| rounds_done (conversation : list turn) : rounds conversation [] [] conversation
| rounds_step (before after : list turn) (m : llm_message) (tc : tool_call)
    (rest : list (llm_message * tool_call)) (tool_args : pyval)
    (result : call_tool_result) (answer : response) (evs : list event) :
    json_loads (fn_arguments (tc_function tc)) = inl tool_args ->
    let extended :=
      (before ++ [Turn "assistant" (or_empty (msg_content m));
                  Turn "user" (tool_response_text result)])%list in
    rounds extended rest evs after ->
    rounds before ((m, tc) :: rest)
      (Call_tool (fn_name (tc_function tc)) tool_args (inl result)
       :: Completion (Request model extended None 1000) (inl answer)
       :: evs)
      after.

(** The lines that the calls [tcs] of one message leave in [final_text],
    read off the events, and the events that come after them. *)
Fixpoint round_lines (tcs : list tool_call) (evs : list event) : list string * list event :=
  match tcs with
  | [] => ([], evs)
  | _ :: rest =>
      match evs with
      | Call_tool name tool_args _ :: Completion _ (inl answer) :: evs' =>
          let '(lines, evs'') := round_lines rest evs' in
          ((calling_line name tool_args :: first_content answer ++ lines)%list, evs'')
      | _ => ([], evs)
      end
  end.

(** The lines of [final_text] for the choices [chs] of the first
    response, read off the events that follow that response: for each
    choice its own text, then for each of its tool calls the line that
    announces the call and the text of the first choice of the answer
    that follows the call. *)
Fixpoint transcript (chs : list choice) (evs : list event) : list string :=
  match chs with
  | [] => []
  | ch :: rest =>
      let '(lines, evs') := round_lines (requested_by (choice_message ch)) evs in
      (own_content (choice_message ch) ++ lines ++ transcript rest evs')%list
  end.

End ProcessQuery.

(** The free text the completion service produced, answer after answer
    and choice after choice. *)
Fixpoint completion_texts (evs : list event) : list string :=
  match evs with
  | [] => []
  | Completion _ (inl answer) :: rest =>
      (flat_map (fun ch => own_content (choice_message ch)) (choices answer)
       ++ completion_texts rest)%list
  | _ :: rest => completion_texts rest
  end.

(** What happened after the first call of a tool that raised. *)
Fixpoint after_failed_call (evs : list event) : option (list event) :=
  match evs with
  | [] => None
  | Call_tool _ _ (inr _) :: rest => Some rest
  | _ :: rest => after_failed_call rest
  end.

Definition is_call (ev : event) : bool :=
  match ev with
  | Call_tool _ _ _ => true
  | _ => false
  end.

(** Is there a request to the completion service with a call of a tool
    somewhere after it? *)
Fixpoint completion_before_call (evs : list event) : bool :=
  match evs with
  | [] => false
  | Completion _ _ :: rest => existsb is_call rest || completion_before_call rest
  | _ :: rest => completion_before_call rest
  end.

(** [stops_at_failure m]: a call of a tool that raised inside [m] is the
    last thing [m] did, and [m] raises that very exception. *)
Definition stops_at_failure {A} (m : C A) : Prop :=
  forall h pre name args e post,
    snd (m h) = (pre ++ Call_tool name args (inr e) :: post)%list ->
    post = [] /\ fst (m h) = inr e.

(** Is there a request to the completion service between two calls of
    tools? *)
Fixpoint completion_between_calls (evs : list event) : bool :=
  match evs with
  | [] => false
  | Call_tool _ _ _ :: rest => completion_before_call rest || completion_between_calls rest
  | _ :: rest => completion_between_calls rest
  end.

End Client.

(* ================================================================== *)
(** ** A reference [PyLib] *)
(* ================================================================== *)

(** An executable instance of [PyLib], on which the tools and the client
    can be run on concrete inputs.  It follows CPython on the values
    JSON can carry; a float is kept as the literal it was read from, the
    message of a [JSONDecodeError] is not reproduced, and bytes outside
    ASCII are passed through as they are. *)
Module PyRef.

Definition ascii_in (lo hi : nat) (c : ascii) : bool :=
  (lo <=? nat_of_ascii c)%nat && (nat_of_ascii c <=? hi)%nat.

Definition is_digit (c : ascii) : bool := ascii_in 48 57 c.

Definition is_ws (c : ascii) : bool :=
  let n := nat_of_ascii c in
  (n =? 32)%nat || (n =? 9)%nat || (n =? 10)%nat || (n =? 13)%nat.

Definition dq : ascii := ascii_of_nat 34.
Definition backslash : ascii := ascii_of_nat 92.
Definition quote : ascii := ascii_of_nat 39.

Definition char (c : ascii) : string := String c EmptyString.

Fixpoint skip_ws (s : string) : string :=
  match s with
  | String c rest => if is_ws c then skip_ws rest else s
  | EmptyString => s
  end.

(** The longest prefix of digits, and what follows it. *)
Fixpoint take_digits (s : string) : string * string :=
  match s with
  | String c rest =>
      if is_digit c
      then let '(ds, rest') := take_digits rest in (String c ds, rest')
      else (EmptyString, s)
  | EmptyString => (EmptyString, s)
  end.

Fixpoint digits_value (ds : string) (acc : Z) : Z :=
  match ds with
  | String c rest => digits_value rest (10 * acc + Z.of_nat (nat_of_ascii c - 48))
  | EmptyString => acc
  end.

Fixpoint all_zero (ds : string) : bool :=
  match ds with
  | String c rest => (nat_of_ascii c =? 48)%nat && all_zero rest
  | EmptyString => true
  end.

(** [prefix ++ rest = s] gives [Some rest]. *)
Fixpoint strip_prefix (prefix s : string) : option string :=
  match prefix, s with
  | EmptyString, _ => Some s
  | String a p, String b t => if Ascii.eqb a b then strip_prefix p t else None
  | String _ _, EmptyString => None
  end.

Definition hex_value (c : ascii) : option nat :=
  if is_digit c then Some (nat_of_ascii c - 48)%nat
  else if ascii_in 97 102 c then Some (nat_of_ascii c - 87)%nat
  else if ascii_in 65 70 c then Some (nat_of_ascii c - 55)%nat
  else None.

(** The UTF-8 bytes of a code point of the basic plane. *)
Definition utf8 (n : nat) : string :=
  if (n <? 128)%nat then char (ascii_of_nat n)
  else if (n <? 2048)%nat then
    String (ascii_of_nat (192 + n / 64)) (char (ascii_of_nat (128 + n mod 64)))
  else
    String (ascii_of_nat (224 + n / 4096))
      (String (ascii_of_nat (128 + (n / 64) mod 64))
         (char (ascii_of_nat (128 + n mod 64)))).

(** The number at the head of [s]: an optional minus sign, then a zero
    or a run of digits that does not start with a zero, then an optional
    fraction (a dot and digits) and an optional exponent. *)
Definition scan_number (s : string) : option (pyval * string) :=
  let '(neg, s1) :=
    match s with
    | String c rest => if Ascii.eqb c "-" then (true, rest) else (false, s)
    | EmptyString => (false, s)
    end in
  let int_part :=
    match s1 with
    | String c rest =>
        if Ascii.eqb c "0" then Some ("0", rest)
        else if is_digit c then Some (take_digits s1)
        else None
    | EmptyString => None
    end in
  match int_part with
  | None => None
  | Some (ds, s2) =>
      let '(frac, s3) :=
        match s2 with
        | String c rest =>
            if Ascii.eqb c "." then
              match take_digits rest with
              | (EmptyString, _) => (EmptyString, s2)
              | (fs, rest') => (String c fs, rest')
              end
            else (EmptyString, s2)
        | EmptyString => (EmptyString, s2)
        end in
      let '(exp, s4) :=
        match s3 with
        | String c rest =>
            if Ascii.eqb c "e" || Ascii.eqb c "E" then
              let '(sign, rest1) :=
                match rest with
                | String d rest' =>
                    if Ascii.eqb d "+" || Ascii.eqb d "-" then (char d, rest') else (EmptyString, rest)
                | EmptyString => (EmptyString, rest)
                end in
              match take_digits rest1 with
              | (EmptyString, _) => (EmptyString, s3)
              | (es, rest') => (String c (sign ++ es), rest')
              end
            else (EmptyString, s3)
        | EmptyString => (EmptyString, s3)
        end in
      let sign := if neg then "-" else EmptyString in
      match frac, exp with
      | EmptyString, EmptyString =>
          Some (PInt (if neg then - digits_value ds 0 else digits_value ds 0)%Z, s4)
      | _, _ =>
          let nonzero := negb (all_zero ds && match frac with
                                              | String _ fs => all_zero fs
                                              | EmptyString => true
                                              end) in
          Some (PObject "float" nonzero (sign ++ ds ++ frac ++ exp), s4)
      end
  end.

(** The rest of a string literal after its opening quote: its value and
    what follows the closing quote. *)
Fixpoint scan_string (fuel : nat) (s : string) : option (string * string) :=
  match fuel with
  | O => None
  | S fuel' =>
      match s with
      | EmptyString => None
      | String c rest =>
          if Ascii.eqb c dq then Some (EmptyString, rest)
          else if Ascii.eqb c backslash then
            match rest with
            | String e rest1 =>
                let plain (x : string) :=
                  match scan_string fuel' rest1 with
                  | Some (v, r) => Some (x ++ v, r)
                  | None => None
                  end in
                if Ascii.eqb e dq then plain (char dq)
                else if Ascii.eqb e backslash then plain (char backslash)
                else if Ascii.eqb e "/" then plain "/"
                else if Ascii.eqb e "b" then plain (char (ascii_of_nat 8))
                else if Ascii.eqb e "f" then plain (char (ascii_of_nat 12))
                else if Ascii.eqb e "n" then plain (char (ascii_of_nat 10))
                else if Ascii.eqb e "r" then plain (char (ascii_of_nat 13))
                else if Ascii.eqb e "t" then plain (char (ascii_of_nat 9))
                else if Ascii.eqb e "u" then
                  match rest1 with
                  | String h1 (String h2 (String h3 (String h4 rest2))) =>
                      match hex_value h1, hex_value h2, hex_value h3, hex_value h4 with
                      | Some a, Some b, Some c', Some d =>
                          match scan_string fuel' rest2 with
                          | Some (v, r) => Some (utf8 (((a * 16 + b) * 16 + c') * 16 + d) ++ v, r)
                          | None => None
                          end
                      | _, _, _, _ => None
                      end
                  | _ => None
                  end
                else None
            | EmptyString => None
            end
          else if (nat_of_ascii c <? 32)%nat then None
          else
            match scan_string fuel' rest with
            | Some (v, r) => Some (String c v, r)
            | None => None
            end
      end
  end.

(** [d[key] = value] on the entries of a dict. *)
Fixpoint dict_set (entries : list (string * pyval)) (key : string) (value : pyval)
  : list (string * pyval) :=
  match entries with
  | [] => [(key, value)]
  | (k, v) :: rest =>
      if String.eqb k key then (k, value) :: rest else (k, v) :: dict_set rest key value
  end.

(** A JSON value at the head of [s] (no blank before it), and what
    follows it. *)
Fixpoint scan_value (fuel : nat) (s : string) : option (pyval * string) :=
  match fuel with
  | O => None
  | S fuel' =>
      match s with
      | EmptyString => None
      | String c rest =>
          if Ascii.eqb c dq then
            match scan_string (String.length s) rest with
            | Some (v, r) => Some (PStr v, r)
            | None => None
            end
          else if Ascii.eqb c "[" then
            match skip_ws rest with
            | String c' rest' as body =>
                if Ascii.eqb c' "]" then Some (PList [], rest')
                else match scan_items fuel' body with
                     | Some (items, r) => Some (PList items, r)
                     | None => None
                     end
            | EmptyString => None
            end
          else if Ascii.eqb c "{" then
            match skip_ws rest with
            | String c' rest' as body =>
                if Ascii.eqb c' "}" then Some (PDict [], rest')
                else match scan_members fuel' body [] with
                     | Some (entries, r) => Some (PDict entries, r)
                     | None => None
                     end
            | EmptyString => None
            end
          else
            match strip_prefix "null" s with
            | Some r => Some (PNone, r)
            | None =>
            match strip_prefix "true" s with
            | Some r => Some (PBool true, r)
            | None =>
            match strip_prefix "false" s with
            | Some r => Some (PBool false, r)
            | None =>
            match strip_prefix "NaN" s with
            | Some r => Some (PObject "float" true "nan", r)
            | None =>
            match strip_prefix "Infinity" s with
            | Some r => Some (PObject "float" true "inf", r)
            | None =>
            match strip_prefix "-Infinity" s with
            | Some r => Some (PObject "float" true "-inf", r)
            | None => scan_number s
            end end end end end end
      end
  end

(** The items of an array after its bracket, up to the closing one. *)
with scan_items (fuel : nat) (s : string) : option (list pyval * string) :=
  match fuel with
  | O => None
  | S fuel' =>
      match scan_value fuel' s with
      | Some (v, r) =>
          match skip_ws r with
          | String c rest =>
              if Ascii.eqb c "," then
                match scan_items fuel' (skip_ws rest) with
                | Some (vs, r') => Some (v :: vs, r')
                | None => None
                end
              else if Ascii.eqb c "]" then Some ([v], rest)
              else None
          | EmptyString => None
          end
      | None => None
      end
  end

(** The members of an object after its brace, up to the closing one. *)
with scan_members (fuel : nat) (s : string) (acc : list (string * pyval))
  : option (list (string * pyval) * string) :=
  match fuel with
  | O => None
  | S fuel' =>
      match s with
      | String c rest =>
          if Ascii.eqb c dq then
            match scan_string (String.length s) rest with
            | Some (key, r) =>
                match skip_ws r with
                | String c1 r1 =>
                    if Ascii.eqb c1 ":" then
                      match scan_value fuel' (skip_ws r1) with
                      | Some (v, r2) =>
                          let acc' := dict_set acc key v in
                          match skip_ws r2 with
                          | String c2 r3 =>
                              if Ascii.eqb c2 "," then scan_members fuel' (skip_ws r3) acc'
                              else if Ascii.eqb c2 "}" then Some (acc', r3)
                              else None
                          | EmptyString => None
                          end
                      | None => None
                      end
                    else None
                | EmptyString => None
                end
            | None => None
            end
          else None
      | EmptyString => None
      end
  end.

(** [json.loads] *)
Definition loads (s : string) : result pyval :=
  match scan_value (2 * String.length s + 2) (skip_ws s) with
  | Some (v, rest) =>
      match skip_ws rest with
      | EmptyString => inl v
      | String _ _ => inr (Exc JSONDecodeError "Extra data")
      end
  | None => inr (Exc JSONDecodeError "Expecting value")
  end.

End PyRef.

Module PyShow.

Import PyRef.

(** Decimal text of an integer. *)
Definition digit_char (n : nat) : ascii := ascii_of_nat (48 + n).

Fixpoint pos_digits (fuel : nat) (n : N) (acc : string) : string :=
  match fuel with
  | O => acc
  | S fuel' =>
      let acc' := String (digit_char (N.to_nat (n mod 10))) acc in
      if (n <? 10)%N then acc' else pos_digits fuel' (n / 10) acc'
  end.

Definition int_text (z : Z) : string :=
  let n := Z.abs_N z in
  let ds := pos_digits (S (N.to_nat (N.log2 n))) n EmptyString in
  if (z <? 0)%Z then String "-" ds else ds.

Definition hex_char (n : nat) : ascii :=
  if (n <? 10)%nat then ascii_of_nat (48 + n) else ascii_of_nat (87 + n).

Definition hex2 (c : ascii) : string :=
  let n := nat_of_ascii c in
  String (hex_char (n / 16)) (char (hex_char (n mod 16))).

Fixpoint has_char (c : ascii) (s : string) : bool :=
  match s with
  | String d rest => Ascii.eqb c d || has_char c rest
  | EmptyString => false
  end.

(** The inside of [repr(s)], between quotes of kind [q]. *)
Fixpoint repr_chars (q : ascii) (s : string) : string :=
  match s with
  | EmptyString => EmptyString
  | String c rest =>
      let n := nat_of_ascii c in
      (if Ascii.eqb c backslash then String backslash (char backslash)
       else if Ascii.eqb c q then String backslash (char q)
       else if (n =? 10)%nat then String backslash "n"
       else if (n =? 13)%nat then String backslash "r"
       else if (n =? 9)%nat then String backslash "t"
       else if (n <? 32)%nat || (n =? 127)%nat then String backslash (String "x" (hex2 c))
       else char c) ++ repr_chars q rest
  end.

(** [repr(s)] of a string: double quotes when [s] has a single quote
    and no double quote, single quotes otherwise. *)
Definition repr_str (s : string) : string :=
  let q := if has_char quote s && negb (has_char dq s) then dq else quote in
  String q (repr_chars q s ++ char q).

(** [repr(v)] *)
Fixpoint repr (v : pyval) : string :=
  match v with
  | PNone => "None"
  | PBool b => if b then "True" else "False"
  | PInt z => int_text z
  | PStr s => repr_str s
  | PList items => "[" ++ String.concat ", " (map repr items) ++ "]"
  | PDict entries =>
      "{" ++ String.concat ", "
               (map (fun kv => match kv with (k, x) => repr_str k ++ ": " ++ repr x end) entries)
          ++ "}"
  | PObject _ _ shown => shown
  end.

(** [str(v)] *)
Definition str (v : pyval) : string :=
  match v with
  | PStr s => s
  | _ => repr v
  end.

(** The inside of a JSON string literal. *)
Fixpoint json_chars (s : string) : string :=
  match s with
  | EmptyString => EmptyString
  | String c rest =>
      let n := nat_of_ascii c in
      (if Ascii.eqb c backslash then String backslash (char backslash)
       else if Ascii.eqb c dq then String backslash (char dq)
       else if (n =? 10)%nat then String backslash "n"
       else if (n =? 13)%nat then String backslash "r"
       else if (n =? 9)%nat then String backslash "t"
       else if (n =? 8)%nat then String backslash "b"
       else if (n =? 12)%nat then String backslash "f"
       else if (n <? 32)%nat then String backslash ("u00" ++ hex2 c)
       else char c) ++ json_chars rest
  end.

Definition json_str (s : string) : string := String dq (json_chars s ++ char dq).

Fixpoint spaces (n : nat) : string :=
  match n with
  | O => EmptyString
  | S n' => String " " (spaces n')
  end.

(** A non-empty container over several lines, its items indented by
    two more columns than the container itself. *)
Definition block (opening closing : string) (level : nat) (items : list string) : string :=
  opening ++ nl ++ spaces (2 * S level)
    ++ String.concat ("," ++ nl ++ spaces (2 * S level)) items
    ++ nl ++ spaces (2 * level) ++ closing.

(** [json.dumps(v, indent=2)], for [v] nested [level] containers deep. *)
Fixpoint dumps_at (level : nat) (v : pyval) : result string :=
  match v with
  | PNone => inl "null"
  | PBool b => inl (if b then "true" else "false")
  | PInt z => inl (int_text z)
  | PStr s => inl (json_str s)
  | PList [] => inl "[]"
  | PList items =>
      match
        (fix each (l : list pyval) : result (list string) :=
           match l with
           | [] => inl []
           | x :: rest =>
               match dumps_at (S level) x with
               | inl t => match each rest with
                          | inl ts => inl (t :: ts)
                          | inr e => inr e
                          end
               | inr e => inr e
               end
           end) items
      with
      | inl ts => inl (block "[" "]" level ts)
      | inr e => inr e
      end
  | PDict [] => inl "{}"
  | PDict entries =>
      match
        (fix each (l : list (string * pyval)) : result (list string) :=
           match l with
           | [] => inl []
           | (k, x) :: rest =>
               match dumps_at (S level) x with
               | inl t => match each rest with
                          | inl ts => inl ((json_str k ++ ": " ++ t) :: ts)
                          | inr e => inr e
                          end
               | inr e => inr e
               end
           end) entries
      with
      | inl ts => inl (block "{" "}" level ts)
      | inr e => inr e
      end
  | PObject cls _ shown =>
      if String.eqb cls "float" then inl shown
      else inr (Exc (ExceptionClass "TypeError")
                    ("Object of type " ++ cls ++ " is not JSON serializable"))
  end.

Definition dumps (v : pyval) : result string := dumps_at 0 v.

End PyShow.

(** The reference instance. *)
Definition python : PyLib :=
  {| py_str := PyShow.str; json_dumps := PyShow.dumps; json_loads := PyRef.loads |}.

(** A Spotify client on which nothing is playing and every operation
    returns [None]. *)
Definition idle_spotify : Server.SpotifyClient :=
  {| Server.spotify_client := fun _ _ => inl PNone |}.

(** *** Worlds for the client *)

Module World.

Import Client.

Definition playback_tool : tool :=
  Tool "playback" (PStr "Manages the current playback") (PDict []).

(** The arguments [{"action": "pause"}], as JSON text. *)
Definition pause_arguments : string :=
  "{" ++ String PyRef.dq ("action" ++ String PyRef.dq
           (": " ++ String PyRef.dq ("pause" ++ String PyRef.dq "}"))).

Definition ask (calls : list tool_call) : response :=
  Response [Choice (Message None (Some calls))].

Definition say (text : string) : response :=
  Response [Choice (Message (Some text) None)].

(** A session whose tools answer with one text item. *)
Definition session : Session :=
  {| session_list_tools := fun _ => inl [playback_tool];
     session_call_tool := fun _ name _ =>
       inl (CallToolResult [TextContent ("done: " ++ name)]) |}.

(** A session on which every call of a tool times out. *)
Definition slow_session : Session :=
  {| session_list_tools := fun _ => inl [playback_tool];
     session_call_tool := fun _ _ _ =>
       inr (Exc (ExceptionClass "TimeoutError") "Timed out while waiting for response") |}.

(** A completion service that asks for [calls] when it is given tools,
    and that says [Done.] when it is not. *)
Definition service (calls : list tool_call) : CompletionService :=
  {| completion := fun _ request =>
       match req_tools request with
       | Some _ => inl (ask calls)
       | None => inl (say "Done.")
       end |}.

Definition pause : tool_call := ToolCall (Function "playback" pause_arguments).
Definition show_queue : tool_call := ToolCall (Function "queue" "{}").

(** The query [pause it] where the service asks for one call and the
    call times out. *)
Definition timed_out : result string * list event :=
  @process_query python slow_session (service [pause]) "pause it" [].

(** The same query where the call is answered. *)
Definition one_call : result string * list event :=
  @process_query python session (service [pause]) "pause it" [].

(** The same query where the service asks for two calls at once. *)
Definition two_calls : result string * list event :=
  @process_query python session (service [pause; show_queue]) "pause it" [].

End World.

(* ================================================================== *)
(** ** The test harness of the client ([test_tool], [test_all_tools]) *)
(* ================================================================== *)

Module Harness.

Import Client.

(** A Python text is kept as its UTF-8 bytes: a character is one byte
    that is no continuation byte, followed by its continuation bytes. *)
Definition is_continuation (c : ascii) : bool :=
  (128 <=? nat_of_ascii c)%nat && (nat_of_ascii c <? 192)%nat.

(** [len(s)] *)
Fixpoint py_len (s : string) : nat :=
  match s with
  | EmptyString => 0
  | String c rest => if is_continuation c then py_len rest else S (py_len rest)
  end.

(** [s[:n]] *)
Fixpoint py_take (n : nat) (s : string) : string :=
  match s with
  | EmptyString => EmptyString
  | String c rest =>
      if is_continuation c then String c (py_take n rest)
      else match n with
           | O => EmptyString
           | S n' => String c (py_take n' rest)
           end
  end.

(** [s * n] *)
Fixpoint py_repeat (s : string) (n : nat) : string :=
  match n with
  | O => EmptyString
  | S n' => s ++ py_repeat s n'
  end.

(** What the harness does to the outside: a line on stdout, or an
    interaction with the MCP session. *)
Inductive event : Type :=
| Print (text : string)
| Session_event (ev : Client.event).

(** The interactions with the session among some events. *)
Fixpoint session_history (evs : list event) : list Client.event :=
  match evs with
  | [] => []
  | Print _ :: rest => session_history rest
  | Session_event ev :: rest => ev :: session_history rest
  end.

(** The texts printed among some events. *)
Fixpoint printed (evs : list event) : list string :=
  match evs with
  | [] => []
  | Print text :: rest => text :: printed rest
  | Session_event _ :: rest => printed rest
  end.

(** The tools called among some events, with their arguments. *)
Fixpoint tools_called (evs : list event) : list (string * pyval) :=
  match evs with
  | [] => []
  | Session_event (Call_tool name arguments _) :: rest => (name, arguments) :: tools_called rest
  | _ :: rest => tools_called rest
  end.

Section TestTools.

Context `{PyLib} `{Session}.

Definition IO : Type -> Type := M event.

Definition print (text : string) : IO unit := emit (Print text).

Definition call_tool (name : string) (arguments : pyval) : IO call_tool_result :=
  fun h =>
    let r := session_call_tool (session_history h) name arguments in
    (r, [Session_event (Call_tool name arguments r)]).

(** The line that shows the response: its first 200 characters and
    three dots when it is longer than that. *)
Definition response_line (response_text : string) : string :=
  if (200 <? py_len response_text)%nat
  then "📄 Response: " ++ py_take 200 response_text ++ "..."
  else "📄 Response: " ++ response_text.

(** The [try] block of [test_tool]. *)
Definition test_tool_try (tool_name : string) (arguments : pyval) : IO string :=
  print (nl ++ "🔧 Testing " ++ tool_name ++ " with args: " ++ py_str arguments);;
  result <- call_tool tool_name arguments;;
  let response_text := tool_response_text result in
  print ("✅ " ++ tool_name ++ " test completed");;
  print (response_line response_text);;
  ret response_text.

Definition test_tool (tool_name : string) (arguments : pyval) : IO string :=
  try_except (test_tool_try tool_name arguments)
    (fun e =>
       print ("❌ " ++ tool_name ++ " test failed: " ++ exc_str e);;
       ret ("Error: " ++ exc_str e)).

(** The tools [test_all_tools] tests, with the arguments it gives
    them, in the order of the source. *)
Definition playback_get : string * pyval := ("playback", PDict [("action", PStr "get")]).
Definition playback_pause : string * pyval := ("playback", PDict [("action", PStr "pause")]).
Definition playback_start : string * pyval := ("playback", PDict [("action", PStr "start")]).
Definition search_song : string * pyval :=
  ("search", PDict [("query", PStr "Bohemian Rhapsody"); ("qtype", PStr "track");
                    ("limit", PInt 5)]).
Definition queue_get : string * pyval := ("queue", PDict [("action", PStr "get")]).
Definition get_info_song : string * pyval :=
  ("get_info", PDict [("item_uri", PStr "spotify:track:3z8h0TU7ReDPLIbEnYhWZb")]).
Definition playlist_get : string * pyval := ("playlist", PDict [("action", PStr "get")]).

Definition test (t : string * pyval) : IO string := test_tool (fst t) (snd t).

(** The [try] block of [test_all_tools]. *)
Definition test_all_tools_try : IO unit :=
  print (nl ++ "🎵 Testing Playback Tools");;
  print (py_repeat "-" 30);;
  test playback_get;;
  test playback_pause;;
  test playback_start;;
  print (nl ++ "🔍 Testing Search Tool");;
  print (py_repeat "-" 30);;
  test search_song;;
  print (nl ++ "📋 Testing Queue Tools");;
  print (py_repeat "-" 30);;
  test queue_get;;
  print (nl ++ "ℹ️ Testing Get Info Tool");;
  print (py_repeat "-" 30);;
  test get_info_song;;
  print (nl ++ "📚 Testing Playlist Tools");;
  print (py_repeat "-" 30);;
  test playlist_get;;
  print (nl ++ "✅ All tests completed!").

Definition test_all_tools : IO unit :=
  print (nl ++ "🚀 Starting Spotify MCP Tool Tests");;
  print (py_repeat "=" 50);;
  try_except test_all_tools_try
    (fun e => print ("❌ Test suite failed: " ++ exc_str e)).

End TestTools.

(** [prefix_of p s]: the text [p] is the beginning of [s]. *)
Definition prefix_of (p s : string) : Prop := exists rest, s = p ++ rest.

(** [returns_calling calls m]: [m] never raises, and the tools it calls
    are [calls], in that order. *)
Definition returns_calling {A} (calls : list (string * pyval)) (m : M event A) : Prop :=
  forall h, exists a evs, m h = (inl a, evs) /\ tools_called evs = calls.

(** [returns_ending ev m]: [m] never raises, and the last thing it
    does is [ev]. *)
Definition returns_ending {A} (ev : event) (m : M event A) : Prop :=
  forall h, exists a evs, m h = (inl a, (evs ++ [ev])%list).

End Harness.

(* ================================================================== *)
(** ** Connecting and cleaning up ([connect_to_sse_server], [cleanup]) *)
(* ================================================================== *)

Module Lifecycle.

Import Client.

(** The attributes of a [SpotifyMCPClient] that the two methods set and
    test: whether [_streams_context] and [_session_context] are set, and
    whether [session] holds a session ([None] after [__init__]). *)
Record client : Type := Self {
  _streams_context : bool;
  _session_context : bool;
  session : bool
}.

(** The client after [__init__]. *)
Definition fresh : client := Self false false false.

(** The interactions with the transport and the session, each with its
    outcome, and the lines on stdout. *)
Inductive event : Type :=
| Print (text : string)
| Streams_aenter (server_url : string) (outcome : result unit)
| Session_aenter (outcome : result unit)
| Initialize (outcome : result unit)
| List_tools (outcome : result (list tool))
| Session_aexit (outcome : result unit)
| Streams_aexit (outcome : result unit).

(** [sse_client] and [ClientSession], as far as the two methods use
    them. *)
Class Transport : Type := {
  streams_aenter : list event -> string -> result unit;
  session_aenter : list event -> result unit;
  initialize : list event -> result unit;
  list_tools : list event -> result (list tool);
  session_aexit : list event -> result unit;
  streams_aexit : list event -> result unit
}.

(** A method: it reads and updates the attributes of [self], which
    keep their updates when the method raises. *)
Definition method (A : Type) : Type := client -> list event -> result A * client * list event.

Definition done {A} (a : A) : method A := fun self _ => (inl a, self, []).

Definition next {A B} (m : method A) (f : A -> method B) : method B :=
  fun self h =>
    match m self h with
    | (inl a, self', evs) =>
        match f a self' (h ++ evs)%list with
        | (r, self'', evs') => (r, self'', (evs ++ evs')%list)
        end
    | (inr e, self', evs) => (inr e, self', evs)
    end.

(** An interaction, which leaves the attributes as they are. *)
Definition act {A} (ask : list event -> result A) (record : result A -> event) : method A :=
  fun self h => let r := ask h in (r, self, [record r]).

Definition print (text : string) : method unit :=
  fun self _ => (inl tt, self, [Print text]).

Definition assign (update : client -> client) : method unit :=
  fun self _ => (inl tt, update self, []).

Definition attribute (get : client -> bool) : method bool :=
  fun self _ => (inl (get self), self, []).

Section Methods.

Context `{PyLib} `{Transport}.

Definition connect_to_sse_server (server_url : string) : method unit :=
  next (print ("🔌 Connecting to SSE server at: " ++ server_url)) (fun _ =>
  next (assign (fun self => Self true (_session_context self) (session self))) (fun _ =>
  next (act (fun h => streams_aenter h server_url) (Streams_aenter server_url)) (fun _ =>
  next (assign (fun self => Self (_streams_context self) true (session self))) (fun _ =>
  next (act session_aenter Session_aenter) (fun _ =>
  next (assign (fun self => Self (_streams_context self) (_session_context self) true)) (fun _ =>
  next (act initialize Initialize) (fun _ =>
  next (print "✅ Initialized SSE client...") (fun _ =>
  next (print "📋 Listing available tools...") (fun _ =>
  next (act list_tools List_tools) (fun tools =>
  print ("🎧 Connected to Spotify MCP server with tools: "
         ++ py_str (PList (map (fun t => PStr (tool_name t)) tools))))))))))))).

Definition cleanup : method unit :=
  next (attribute _session_context) (fun has_session_context =>
  next (if has_session_context then act session_aexit Session_aexit else done tt) (fun _ =>
  next (attribute _streams_context) (fun has_streams_context =>
  if has_streams_context then act streams_aexit Streams_aexit else done tt))).

(** [connect_to_sse_server] and then [cleanup] whatever the first
    did, as [main] runs them with [try ... finally]. *)
Definition connect_then_cleanup (server_url : string) (self : client) (h : list event)
  : result unit * result unit * client * list event :=
  match connect_to_sse_server server_url self h with
  | (r, self', evs) =>
      match cleanup self' (h ++ evs)%list with
      | (r', self'', evs') => (r, r', self'', evs')
      end
  end.

End Methods.

End Lifecycle.

(* ================================================================== *)
(** ** Reading the runs of the tools and of a query *)
(* ================================================================== *)

Module Views.

(** [serves c run]: the run called the Spotify client exactly once,
    with [c], and when that call returned a value the run ends with the
    text [json.dumps] gives for the value, or, when [json.dumps] raises,
    with [Error: ] and the message of its exception. *)
Definition serves `{PyLib} (c : Server.backend_call)
    (run : result string * list Server.event) : Prop :=
  Server.backend_calls (snd run) = [c]
  /\ (forall v, In (Server.Backend c (inl v)) (snd run) ->
                fst run = inl (match json_dumps v with
                               | inl text => text
                               | inr e => "Error: " ++ exc_str e
                               end)).



(** The exception of an interaction of a query that raised. *)
Definition failure (ev : Client.event) : option exn :=
  match ev with
  | Client.List_tools (inr e) => Some e
  | Client.Completion _ (inr e) => Some e
  | Client.Call_tool _ _ (inr e) => Some e
  | _ => None
  end.

(** [ends_at_failure m]: an interaction that raised inside [m] is the
    last thing [m] did, and [m] raises that very exception. *)
Definition ends_at_failure {A} (m : Client.C A) : Prop :=
  forall h pre ev e post,
    snd (m h) = (pre ++ ev :: post)%list ->
    failure ev = Some e ->
    post = [] /\ fst (m h) = inr e.


End Views.

(** A Spotify client on which a track is playing. *)
Definition playing_spotify : Server.SpotifyClient :=
  {| Server.spotify_client := fun _ c =>
       match c with
       | Server.Get_current_track =>
           inl (PDict [("name", PStr "Bohemian Rhapsody"); ("artist", PStr "Queen")])
       | Server.Get_playlist_tracks _ => inl (PList [PStr "t1"; PStr "t2"])
       | _ => inl PNone
       end |}.

(** *** More worlds for the client *)

Module Scenes.

Import Client.

(** A completion service that is out of reach. *)
Definition no_service : CompletionService :=
  {| completion := fun _ _ => inr (Exc (ExceptionClass "APIConnectionError") "Connection error.") |}.

(** A completion service that only talks. *)
Definition talker : CompletionService :=
  {| completion := fun _ _ => inl (World.say "Nothing is playing.") |}.

(** A tool call whose arguments are cut short. *)
Definition cut_short : tool_call := ToolCall (Function "playback" "{").

(** A session that answers every call of a tool with a long text. *)
Definition wordy_session : Session :=
  {| session_list_tools := fun _ => inl [World.playback_tool];
     session_call_tool := fun _ _ _ =>
       inl (CallToolResult [TextContent (Harness.py_repeat "la" 150)]) |}.

(** A transport on which everything works and the server has one
    tool. *)
Definition transport : Lifecycle.Transport :=
  {| Lifecycle.streams_aenter := fun _ _ => inl tt;
     Lifecycle.session_aenter := fun _ => inl tt;
     Lifecycle.initialize := fun _ => inl tt;
     Lifecycle.list_tools := fun _ => inl [World.playback_tool];
     Lifecycle.session_aexit := fun _ => inl tt;
     Lifecycle.streams_aexit := fun _ => inl tt |}.

(** A transport that finds no server. *)
Definition no_server : Lifecycle.Transport :=
  {| Lifecycle.streams_aenter := fun _ _ =>
       inr (Exc (ExceptionClass "ConnectError") "All connection attempts failed");
     Lifecycle.session_aenter := fun _ => inl tt;
     Lifecycle.initialize := fun _ => inl tt;
     Lifecycle.list_tools := fun _ => inl [];
     Lifecycle.session_aexit := fun _ => inl tt;
     Lifecycle.streams_aexit := fun _ => inl tt |}.

(** A transport on which the session cannot be entered. *)
Definition no_session : Lifecycle.Transport :=
  {| Lifecycle.streams_aenter := fun _ _ => inl tt;
     Lifecycle.session_aenter := fun _ =>
       inr (Exc (ExceptionClass "RuntimeError") "session refused");
     Lifecycle.initialize := fun _ => inl tt;
     Lifecycle.list_tools := fun _ => inl [];
     Lifecycle.session_aexit := fun _ => inl tt;
     Lifecycle.streams_aexit := fun _ => inl tt |}.

End Scenes.

(* ================================================================== *)
(** ** Facts about texts *)
(* ================================================================== *)

Lemma startswith_app (s t p : string) :
  startswith s p = true -> startswith (s ++ t) p = true.
Proof.
  revert s; induction p as [|a p IH]; intros s Hp; [reflexivity|].
  destruct s as [|b s]; simpl in *; [discriminate|].
  apply andb_true_iff in Hp as [Hab Hp].
  now rewrite Hab, (IH _ Hp).
Qed.

Lemma contains_app_l (n s t : string) :
  contains n s = true -> contains n (s ++ t) = true.
Proof.
  induction s as [|c s IH]; simpl; intros Hc.
  - destruct n; [|discriminate]. destruct t; reflexivity.
  - destruct (startswith (String c s) n) eqn:Hp.
    + change (String c (s ++ t)) with (String c s ++ t).
      now rewrite (startswith_app _ t _ Hp).
    + rewrite (IH Hc). now destruct (startswith (String c (s ++ t)) n).
Qed.

Lemma contains_app_r (n s t : string) :
  contains n t = true -> contains n (s ++ t) = true.
Proof.
  intros Hc. induction s as [|c s IH]; simpl; [exact Hc|].
  rewrite IH. now destruct (startswith (String c (s ++ t)) n).
Qed.

Lemma eqb_neq_of_not_in (a x : string) (l : list string) :
  ~ In a l -> In x l -> (a =? x) = false.
Proof.
  intros Hn Hx. apply String.eqb_neq. intros ->. now apply Hn.
Qed.

(* ================================================================== *)
(** ** The tools: what a call answers *)
(* ================================================================== *)

Module ServerFacts.

Import Server.

#[local] Arguments String.append : simpl never.

(** Unfolds a tool down to the events it emits. *)
Ltac run_tools :=
  unfold rejects_missing, run_tool, playback, playback_try, search, search_try,
    queue, queue_try, get_info, get_info_try, playlist, playlist_try,
    decode_track_ids, report, logger_info, logger_error, call,
    try_except, catching, bind, lift, emit, ret;
  simpl.

(** Closes a goal about which events are in a list of events. *)
Ltac which_event :=
  repeat match goal with
         | H : In _ _ |- _ => simpl in H
         | H : _ \/ _ |- _ => destruct H
         | H : False |- _ => destruct H
         | H : Log _ _ = Backend _ _ |- _ => discriminate H
         | H : Backend _ _ = Backend _ _ |- _ => injection H as ? ?; subst
         end.

Section Facts.

Context {lib : PyLib} {client : SpotifyClient}.

Lemma propagates_quiet {A} (m : T A) :
  (forall h, backend_calls (snd (m h)) = []) -> propagates m.
Proof.
  intros Hq h c e Hin. specialize (Hq h).
  induction (snd (m h)) as [|[l t|c' r] evs IH]; simpl in *;
    [contradiction | | discriminate].
  destruct Hin as [Heq|Hin]; [discriminate | auto].
Qed.

Lemma propagates_ret {A} (a : A) : propagates (ret a).
Proof. now apply propagates_quiet. Qed.

Lemma propagates_lift {A} (r : result A) : propagates (lift r).
Proof. now apply propagates_quiet. Qed.

Lemma propagates_info (message : string) : propagates (logger_info message).
Proof. now apply propagates_quiet. Qed.

Lemma propagates_error (message : string) : propagates (logger_error message).
Proof. now apply propagates_quiet. Qed.

Lemma propagates_call (c : backend_call) : propagates (call c).
Proof.
  intros h c' e [Heq|[]]. simpl. now injection Heq as _ ->.
Qed.

Lemma propagates_decode (track_ids : pyval) : propagates (decode_track_ids track_ids).
Proof.
  apply propagates_quiet. intros h. unfold decode_track_ids, catching, lift, ret.
  destruct track_ids; simpl; try reflexivity.
  destruct (json_loads s) as [v|e]; [reflexivity|].
  now destruct (is_JSONDecodeError e).
Qed.

Lemma propagates_bind {A B} (m : T A) (f : A -> T B) :
  propagates m -> (forall a, propagates (f a)) -> propagates (bind m f).
Proof.
  intros Hm Hf h c e. unfold bind.
  specialize (Hm h c e).
  destruct (m h) as [[a|e0] evs] eqn:Hrun; simpl in *;
    [|intros Hin; specialize (Hm Hin); now injection Hm as ->].
  specialize (Hf a (h ++ evs)%list c e).
  destruct (f a (h ++ evs)%list) as [r evs']; simpl in *.
  intros Hin. apply in_app_or in Hin as [Hin|Hin]; [|auto].
  specialize (Hm Hin). discriminate.
Qed.

(** Proves [propagates] for a body made of the steps above. *)
Ltac propagation :=
  repeat first
    [ apply propagates_bind; [|intros ?]
    | apply propagates_ret
    | apply propagates_lift
    | apply propagates_info
    | apply propagates_error
    | apply propagates_call
    | apply propagates_decode
    | match goal with
      | |- propagates (if ?b then _ else _) => destruct b
      | |- propagates (match ?x with _ => _ end) => destruct x
      end ].

Lemma try_report_returns (m : T string) (what : string) (h : list event) :
  exists text, fst (try_except m (report what) h) = inl text.
Proof.
  unfold try_except. destruct (m h) as [[text|e] evs]; simpl; eauto.
Qed.

Lemma try_report_error (m : T string) (what : string) (h : list event) call e :
  propagates m ->
  In (Backend call (inr e)) (snd (try_except m (report what) h)) ->
  fst (try_except m (report what) h) = inl ("Error: " ++ exc_str e).
Proof.
  intros Hm. specialize (Hm h call e). unfold try_except.
  destruct (m h) as [[text|e0] evs]; simpl in *.
  - intros Hin. specialize (Hm Hin). discriminate.
  - intros [Hin|[Heq|[]]]%in_app_or; [|discriminate].
    specialize (Hm Hin). now injection Hm as ->.
Qed.

(** C3: whatever tool is called, with whatever action and arguments,
    and whatever the Spotify client does, the tool function returns a
    text and raises nothing.  When a call of the Spotify client raised
    an exception [e], the returned text is ["Error: "] followed by
    [str(e)]; and so it is for an exception raised by anything else in
    the [try] block of the tool. *)
Theorem tools_return_text (c : tool_call) (h : list event) :
  (exists text, fst (run_tool c h) = inl text)
  /\ (forall call e,
        In (Backend call (inr e)) (snd (run_tool c h)) ->
        fst (run_tool c h) = inl ("Error: " ++ exc_str e))
  /\ (forall e,
        fst (tool_try c h) = inr e ->
        fst (run_tool c h) = inl ("Error: " ++ exc_str e)).
Proof.
  split; [|split].
  - destruct c; apply try_report_returns.
  - intros call e.
    destruct c; apply try_report_error;
      unfold playback_try, search_try, queue_try, get_info_try, playlist_try;
      propagation.
  - intros e.
    destruct c; simpl;
      unfold playback, search, queue, get_info, playlist, try_except;
      match goal with
      | |- context [fst (?m h)] => destruct (m h) as [[text|e0] evs]
      end; simpl; congruence.
Qed.

(** C1: a call that leaves a required argument out ([None], the
    default of the parameter) is answered with a text that names the
    argument as required, and the Spotify client is not called: [queue]
    with action [add] and no [track_id]; [playlist] with one of the
    four actions on a playlist and no [playlist_id]; [playlist] with
    [add_tracks] or [remove_tracks] and no [track_ids]. *)
Theorem missing_argument_rejected (h : list event) :
  rejects_missing "track_id" (queue "add" PNone h)
  /\ (forall track_ids name description,
        Forall (fun action =>
                  rejects_missing "playlist_id"
                    (playlist action PNone track_ids name description h))
               ["get_tracks"; "add_tracks"; "remove_tracks"; "change_details"])
  /\ (forall playlist_id name description,
        Forall (fun action =>
                  rejects_missing "track_ids"
                    (playlist action playlist_id PNone name description h))
               ["add_tracks"; "remove_tracks"]).
Proof.
  split; [|split]; intros; repeat constructor; run_tools;
    rewrite ?orb_true_r; simpl;
    (eexists; repeat split; reflexivity).
Qed.

(** C7: a tool that takes an action ([playback], [queue], [playlist]),
    called with an action that is none of those it supports, returns a
    text (it raises nothing) in which every supported action of that
    tool occurs; the Spotify client is not called. *)
Theorem unknown_action_lists_supported (c : tool_call) (action : string) (h : list event) :
  action_of c = Some action ->
  ~ In action (supported_actions c) ->
  exists text,
    fst (run_tool c h) = inl text
    /\ Forall (fun a => contains a text = true) (supported_actions c)
    /\ backend_calls (snd (run_tool c h)) = [].
Proof.
  intros Hact Hnot.
  assert (Hne : forall a, In a (supported_actions c) -> (action =? a) = false)
    by (intros a; now apply eqb_neq_of_not_in).
  destruct c; simpl in Hact; try discriminate; injection Hact as ->;
    simpl in Hne; run_tools;
    rewrite ?Hne by (simpl; tauto); simpl;
    (eexists; split; [reflexivity|]; split; [|reflexivity]);
    repeat constructor; do 2 apply contains_app_r; reflexivity.
Qed.

(** C9: [playback] with action [get], when [get_current_track] returns
    a value that Python takes for false (no track is playing), returns
    exactly the text [No track playing.]. *)
Theorem no_track_playing (spotify_uri num_skips curr_track : pyval) (h : list event) :
  In (Backend Get_current_track (inl curr_track))
     (snd (playback "get" spotify_uri num_skips h)) ->
  py_truthy curr_track = false ->
  fst (playback "get" spotify_uri num_skips h) = inl "No track playing.".
Proof.
  run_tools.
  destruct (spotify_client _ Get_current_track) as [v|e]; simpl.
  - destruct (py_truthy v) eqn:Hv; simpl.
    + destruct (py_get v "name" (PStr "Unknown")) as [n|e]; simpl;
        [destruct (json_dumps v); simpl|];
        intros Hin Hf; which_event; congruence.
    + reflexivity.
  - intros Hin; which_event; discriminate.
Qed.

Lemma run_tracks_decoded (playlist_id track_ids_list name description : pyval)
    (s : string) (h : list event) :
  py_truthy playlist_id = true ->
  s <> EmptyString ->
  json_loads s = inl track_ids_list ->
  forwards (Add_tracks_to_playlist playlist_id track_ids_list) "Tracks added to playlist."
           (playlist "add_tracks" playlist_id (PStr s) name description h)
  /\ forwards (Remove_tracks_from_playlist playlist_id track_ids_list)
              "Tracks removed from playlist."
              (playlist "remove_tracks" playlist_id (PStr s) name description h).
Proof.
  intros Hp Hs Hv. apply String.eqb_neq in Hs.
  unfold forwards; run_tools. unfold py_not. simpl. rewrite Hp, Hs, Hv. simpl.
  split;
    (match goal with
     | |- context [spotify_client ?h' ?c] => destruct (spotify_client h' c)
     end; simpl; (split; [reflexivity | intros; which_event; congruence])).
Qed.

Lemma run_tracks_not_decoded (playlist_id name description : pyval)
    (s : string) (e : exn) (h : list event) :
  py_truthy playlist_id = true ->
  s <> EmptyString ->
  json_loads s = inr e ->
  let text := if is_JSONDecodeError e
              then "Error: track_ids must be a valid JSON array."
              else "Error: " ++ exc_str e in
  refuses text (playlist "add_tracks" playlist_id (PStr s) name description h)
  /\ refuses text (playlist "remove_tracks" playlist_id (PStr s) name description h).
Proof.
  intros Hp Hs He. apply String.eqb_neq in Hs.
  unfold refuses; run_tools. unfold py_not. simpl. rewrite Hp, Hs, He. simpl.
  destruct (is_JSONDecodeError e); simpl; repeat split.
Qed.

(** C2, as the code has it: [playlist] with action [add_tracks] or
    [remove_tracks], a [playlist_id] that is not empty and a [track_ids]
    that is a string and not the empty one.  When [json.loads] decodes
    the string, the Spotify client is called once, with the decoded
    value.  When [json.loads] raises [JSONDecodeError], the text
    [Error: track_ids must be a valid JSON array.] is returned and the
    Spotify client is not called (any other exception of [json.loads]
    gives [Error: ] and its message, and no call either). *)
Theorem track_ids_text_is_decoded (playlist_id name description : pyval)
    (s : string) (h : list event) :
  py_truthy playlist_id = true ->
  s <> EmptyString ->
  match json_loads s with
  | inl track_ids_list =>
      forwards (Add_tracks_to_playlist playlist_id track_ids_list)
               "Tracks added to playlist."
               (playlist "add_tracks" playlist_id (PStr s) name description h)
      /\ forwards (Remove_tracks_from_playlist playlist_id track_ids_list)
                  "Tracks removed from playlist."
                  (playlist "remove_tracks" playlist_id (PStr s) name description h)
  | inr e =>
      let text := if is_JSONDecodeError e
                  then "Error: track_ids must be a valid JSON array."
                  else "Error: " ++ exc_str e in
      refuses text (playlist "add_tracks" playlist_id (PStr s) name description h)
      /\ refuses text (playlist "remove_tracks" playlist_id (PStr s) name description h)
  end.
Proof.
  intros Hp Hs. destruct (json_loads s) as [v|e] eqn:Hv.
  - now apply run_tracks_decoded.
  - now apply run_tracks_not_decoded.
Qed.

(** An empty [track_ids] string never reaches [json.loads]: it is
    answered like a missing one. *)
Lemma empty_track_ids_rejected (playlist_id name description : pyval) (h : list event) :
  rejects_missing "track_ids"
    (playlist "add_tracks" playlist_id (PStr EmptyString) name description h)
  /\ rejects_missing "track_ids"
       (playlist "remove_tracks" playlist_id (PStr EmptyString) name description h).
Proof.
  split; run_tools; rewrite ?orb_true_r; simpl; (eexists; repeat split; reflexivity).
Qed.

(** C10: the check of [track_ids] is that [json.loads] decodes it, not
    that it decodes to an array.  For [add_tracks] and [remove_tracks]
    with a [playlist_id] that is not empty, a [track_ids] string that
    is valid JSON for a value that is not a list is decoded and that
    value is what the Spotify client is called with; the call having
    returned, the answer is the text of success, not an error about
    the argument. *)
Theorem non_array_track_ids_forwarded (playlist_id name description v : pyval)
    (s : string) (e0 : exn) (h : list event) :
  py_truthy playlist_id = true ->
  json_loads EmptyString = inr e0 ->
  json_loads s = inl v ->
  is_list v = false ->
  forwards (Add_tracks_to_playlist playlist_id v) "Tracks added to playlist."
           (playlist "add_tracks" playlist_id (PStr s) name description h)
  /\ forwards (Remove_tracks_from_playlist playlist_id v) "Tracks removed from playlist."
              (playlist "remove_tracks" playlist_id (PStr s) name description h).
Proof.
  intros Hp Hempty Hv _. apply run_tracks_decoded; auto.
  intros ->. congruence.
Qed.

(** C8, as the code has it: [playlist] with action [change_details] and
    a [playlist_id] that is not empty.  When [name] or [description] is
    a value that Python takes for true (a string that is not empty),
    the Spotify client is called once, to change the details, and the
    call having returned the answer is [Playlist details changed.].
    When both are [None] or empty, the text
    [At least one of name or description is required.] is returned and
    the Spotify client is not called. *)
Theorem change_details_needs_one_of (playlist_id track_ids name description : pyval)
    (h : list event) :
  py_truthy playlist_id = true ->
  if py_truthy name || py_truthy description
  then forwards (Change_playlist_details playlist_id name description)
                "Playlist details changed."
                (playlist "change_details" playlist_id track_ids name description h)
  else refuses "At least one of name or description is required."
               (playlist "change_details" playlist_id track_ids name description h).
Proof.
  intros Hp. unfold forwards, refuses; run_tools. unfold py_not. rewrite Hp. simpl.
  destruct (py_truthy name), (py_truthy description); simpl;
    try (split; reflexivity);
    (match goal with
     | |- context [spotify_client ?h' ?c] => destruct (spotify_client h' c)
     end; simpl; (split; [reflexivity | intros; which_event; congruence])).
Qed.

End Facts.

(** *** The tools on the reference library and an idle client *)

(** C7 at [playback(action="dance")]. *)
Lemma unknown_action_witness :
  action_of (Call_playback "dance" PNone (PInt 1)) = Some "dance"
  /\ ~ In "dance" (supported_actions (Call_playback "dance" PNone (PInt 1)))
  /\ exists text,
       fst (@run_tool python idle_spotify (Call_playback "dance" PNone (PInt 1)) []) = inl text
       /\ Forall (fun a => contains a text = true) ["get"; "start"; "pause"; "skip"]
       /\ backend_calls
            (snd (@run_tool python idle_spotify (Call_playback "dance" PNone (PInt 1)) [])) = [].
Proof.
  assert (Hn : ~ In "dance" (supported_actions (Call_playback "dance" PNone (PInt 1))))
    by (simpl; intros [E|[E|[E|[E|[]]]]]; discriminate E).
  exact (conj eq_refl (conj Hn
           (@unknown_action_lists_supported python idle_spotify
              (Call_playback "dance" PNone (PInt 1)) "dance" [] eq_refl Hn))).
Defined.

(** C9 at [playback(action="get")] when nothing is playing. *)
Lemma no_track_playing_witness :
  In (Backend Get_current_track (inl PNone))
     (snd (@playback python idle_spotify "get" PNone (PInt 1) []))
  /\ py_truthy PNone = false
  /\ fst (@playback python idle_spotify "get" PNone (PInt 1) []) = inl "No track playing.".
Proof.
  assert (Hin : In (Backend Get_current_track (inl PNone))
                   (snd (@playback python idle_spotify "get" PNone (PInt 1) [])))
    by (right; left; reflexivity).
  exact (conj Hin (conj eq_refl
           (@no_track_playing python idle_spotify PNone (PInt 1) PNone [] Hin eq_refl))).
Defined.

(** C2 at [playlist(action="add_tracks", playlist_id="p1", track_ids="[1,2,3]")]:
    the list of the three numbers is what the Spotify client gets. *)
Lemma track_ids_text_is_decoded_witness :
  py_truthy (PStr "p1") = true
  /\ "[1,2,3]" <> EmptyString
  /\ forwards (Add_tracks_to_playlist (PStr "p1") (PList [PInt 1; PInt 2; PInt 3]))
              "Tracks added to playlist."
              (@playlist python idle_spotify "add_tracks" (PStr "p1") (PStr "[1,2,3]")
                         PNone PNone [])
  /\ forwards (Remove_tracks_from_playlist (PStr "p1") (PList [PInt 1; PInt 2; PInt 3]))
              "Tracks removed from playlist."
              (@playlist python idle_spotify "remove_tracks" (PStr "p1") (PStr "[1,2,3]")
                         PNone PNone []).
Proof.
  assert (Hs : "[1,2,3]" <> EmptyString) by discriminate.
  exact (conj eq_refl (conj Hs
           (@track_ids_text_is_decoded python idle_spotify (PStr "p1") PNone PNone
              "[1,2,3]" [] eq_refl Hs))).
Defined.

(** The other half of C2, at [track_ids="not-json"] with a playlist:
    the text of the decoding error, and no call. *)
Example not_json_refused :
  refuses "Error: track_ids must be a valid JSON array."
          (@playlist python idle_spotify "add_tracks" (PStr "p1") (PStr "not-json")
                     PNone PNone []).
Proof. split; reflexivity. Qed.

(** C2 fails as stated.  The empty string is not valid JSON, and with
    it [add_tracks] answers that the arguments are required, which is
    not the text of the decoding error; and the very call of the
    specification, [playlist(action="add_tracks", track_ids="not-json")],
    has no [playlist_id] and is answered the same way. *)
Lemma track_ids_counterexample :
  (exists e, @json_loads python EmptyString = inr e /\ is_JSONDecodeError e = true)
  /\ fst (@playlist python idle_spotify "add_tracks" (PStr "p1") (PStr EmptyString)
                    PNone PNone [])
     = inl "playlist_id and track_ids are required for add_tracks action."
  /\ fst (@playlist python idle_spotify "add_tracks" PNone (PStr "not-json") PNone PNone [])
     = inl "playlist_id and track_ids are required for add_tracks action."
  /\ "playlist_id and track_ids are required for add_tracks action."
     <> "Error: track_ids must be a valid JSON array.".
Proof.
  split; [eexists; split; reflexivity|].
  repeat split; try reflexivity. discriminate.
Qed.

(** C10 at [track_ids="123"]: the number 123 is forwarded. *)
Lemma non_array_track_ids_forwarded_witness :
  py_truthy (PStr "p1") = true
  /\ @json_loads python EmptyString = inr (Exc JSONDecodeError "Expecting value")
  /\ @json_loads python "123" = inl (PInt 123)
  /\ is_list (PInt 123) = false
  /\ forwards (Add_tracks_to_playlist (PStr "p1") (PInt 123)) "Tracks added to playlist."
              (@playlist python idle_spotify "add_tracks" (PStr "p1") (PStr "123")
                         PNone PNone [])
  /\ forwards (Remove_tracks_from_playlist (PStr "p1") (PInt 123))
              "Tracks removed from playlist."
              (@playlist python idle_spotify "remove_tracks" (PStr "p1") (PStr "123")
                         PNone PNone []).
Proof.
  exact (conj eq_refl (conj eq_refl (conj eq_refl (conj eq_refl
           (@non_array_track_ids_forwarded python idle_spotify (PStr "p1") PNone PNone
              (PInt 123) "123" (Exc JSONDecodeError "Expecting value") []
              eq_refl eq_refl eq_refl eq_refl))))).
Defined.

(** C10 at a JSON string: [track_ids] is the text of ["abc"], quotes
    included, and the string [abc] is forwarded. *)
Example json_string_forwarded :
  let track_ids := String PyRef.dq ("abc" ++ String PyRef.dq EmptyString) in
  backend_calls
    (snd (@playlist python idle_spotify "add_tracks" (PStr "p1") (PStr track_ids)
                    PNone PNone []))
  = [Add_tracks_to_playlist (PStr "p1") (PStr "abc")].
Proof. reflexivity. Qed.

(** C8 at a call that gives a description only. *)
Lemma change_details_needs_one_of_witness :
  py_truthy (PStr "p1") = true
  /\ forwards (Change_playlist_details (PStr "p1") PNone (PStr "chill"))
              "Playlist details changed."
              (@playlist python idle_spotify "change_details" (PStr "p1") PNone PNone
                         (PStr "chill") []).
Proof.
  exact (conj eq_refl
           (@change_details_needs_one_of python idle_spotify (PStr "p1") PNone PNone
              (PStr "chill") [] eq_refl)).
Defined.

(** C8 fails as stated.  With a playlist and a [name] that is supplied
    but empty, the call is refused although one of the two was
    supplied; so is a call whose [playlist_id] is supplied but empty. *)
Lemma change_details_counterexample :
  PStr EmptyString <> PNone
  /\ refuses "At least one of name or description is required."
             (@playlist python idle_spotify "change_details" (PStr "p1") PNone
                        (PStr EmptyString) PNone [])
  /\ refuses "playlist_id is required for change_details action."
             (@playlist python idle_spotify "change_details" (PStr EmptyString) PNone
                        (PStr "Road trip") PNone []).
Proof. repeat split; try reflexivity. discriminate. Qed.

End ServerFacts.

(* ================================================================== *)
(** ** The client: what a query does *)
(* ================================================================== *)

Module ClientFacts.

Import Client.

Lemma no_call_in (evs pre post : list event) (ev : event) :
  existsb is_call evs = false -> is_call ev = true ->
  evs <> (pre ++ ev :: post)%list.
Proof.
  intros Hno Hev ->. rewrite existsb_app in Hno. simpl in Hno.
  rewrite Hev, orb_true_r in Hno. discriminate.
Qed.

Lemma bind_returns {E A B} (m : M E A) (f : A -> M E B) (h : list E) b evs :
  bind m f h = (inl b, evs) ->
  exists a evs1 evs2,
    m h = (inl a, evs1) /\ f a (h ++ evs1)%list = (inl b, evs2) /\ evs = (evs1 ++ evs2)%list.
Proof.
  unfold bind. destruct (m h) as [[a|e] evs1]; [|discriminate].
  destruct (f a (h ++ evs1)%list) as [r evs2] eqn:Hf.
  intros [= -> <-]. now exists a, evs1, evs2.
Qed.

Section Facts.

Context {lib : PyLib} {session : Session} {service : CompletionService}.

Lemma stops_quiet {A} (m : C A) :
  (forall h, existsb is_call (snd (m h)) = false) -> stops_at_failure m.
Proof.
  intros Hq h pre name args e post Heq.
  now elim (no_call_in _ pre post (Call_tool name args (inr e)) (Hq h)).
Qed.

Lemma stops_ret {A} (a : A) : stops_at_failure (ret a).
Proof. now apply stops_quiet. Qed.

Lemma stops_lift {A} (r : result A) : stops_at_failure (lift r).
Proof. now apply stops_quiet. Qed.

Lemma stops_complete (request : completion_request) : stops_at_failure (complete request).
Proof. now apply stops_quiet. Qed.

Lemma stops_call_tool (name : string) (args : pyval) : stops_at_failure (call_tool name args).
Proof.
  intros h pre n a e post. unfold call_tool; simpl.
  destruct pre as [|ev pre]; simpl.
  - intros [= -> -> -> <-]. auto.
  - intros [= _ Hnil]. now destruct pre.
Qed.

Lemma stops_bind {A B} (m : C A) (f : A -> C B) :
  stops_at_failure m -> (forall a, stops_at_failure (f a)) -> stops_at_failure (bind m f).
Proof.
  intros Hm Hf h pre name args e post. unfold bind.
  specialize (Hm h). destruct (m h) as [[a|e0] evs] eqn:Hrun; simpl in *.
  - specialize (Hf a (h ++ evs)%list).
    destruct (f a (h ++ evs)%list) as [r evs']; simpl in *.
    intros Heq. apply app_eq_app in Heq as [l [[E1 E2]|[E1 E2]]].
    + destruct l as [|ev l]; simpl in E2.
      * apply (Hf [] name args e post). now rewrite <- E2.
      * injection E2 as <- E2.
        destruct (Hm pre name args e l E1) as [_ Habs]. discriminate.
    + apply (Hf l name args e post E2).
  - intros Heq. destruct (Hm pre name args e post Heq) as [-> [= ->]]. auto.
Qed.

Lemma stops_dispatch (message : llm_message) (tc : tool_call) (st : locals) :
  stops_at_failure (dispatch message tc st).
Proof.
  unfold dispatch.
  repeat (apply stops_bind; [|intros ?]);
    auto using stops_lift, stops_call_tool, stops_complete, stops_ret.
Qed.

Lemma stops_dispatch_all (message : llm_message) (tcs : list tool_call) (st : locals) :
  stops_at_failure (dispatch_all message tcs st).
Proof.
  revert st; induction tcs as [|tc tcs IH]; intros st; simpl.
  - apply stops_ret.
  - apply stops_bind; [apply stops_dispatch | intros st'; apply IH].
Qed.

Lemma stops_visit_choice (ch : choice) (st : locals) :
  stops_at_failure (visit_choice ch st).
Proof.
  unfold visit_choice.
  destruct (msg_tool_calls (choice_message ch)); [apply stops_dispatch_all | apply stops_ret].
Qed.

Lemma stops_visit_choices (chs : list choice) (st : locals) :
  stops_at_failure (visit_choices chs st).
Proof.
  revert st; induction chs as [|ch chs IH]; intros st; simpl.
  - apply stops_ret.
  - apply stops_bind; [apply stops_visit_choice | intros st'; apply IH].
Qed.

Lemma stops_process_query_try (messages0 : list turn) (available_tools : list pyval) :
  stops_at_failure (process_query_try messages0 available_tools).
Proof.
  unfold process_query_try.
  apply stops_bind; [apply stops_complete | intros response].
  apply stops_bind; [apply stops_visit_choices | intros st; apply stops_ret].
Qed.

(** C4, as the code has it: when a call of a tool raises (a time-out,
    a failed call), [process_query] does nothing more, neither a turn
    nor a request to the completion service, and it returns the text
    [Error processing query: ] followed by the message of the
    exception. *)
Theorem tool_failure_ends_query (query : string) (h pre post : list event)
    (name : string) (args : pyval) (e : exn) :
  snd (process_query query h) = (pre ++ Call_tool name args (inr e) :: post)%list ->
  post = []
  /\ fst (process_query query h) = inl ("Error processing query: " ++ exc_str e).
Proof.
  unfold process_query, bind, list_tools.
  destruct (session_list_tools h) as [tools|e0]; simpl.
  - unfold try_except.
    pose proof (stops_process_query_try [Turn "user" query] (map available_tool tools)
                  (h ++ [List_tools (inl tools)])%list) as Hstop.
    destruct (process_query_try _ _ _) as [[text|e1] evs]; simpl in *;
      rewrite ?app_nil_r;
      (destruct pre as [|ev pre]; simpl; intros Heq; [discriminate Heq|]);
      injection Heq as _ Heq;
      destruct (Hstop pre name args e post Heq) as [-> Hr].
    + discriminate Hr.
    + injection Hr as ->. auto.
  - destruct pre as [|ev pre]; simpl; intros Heq; [discriminate Heq|].
    injection Heq as _ Heq. now destruct pre.
Qed.

(** *** The shape of a run that raises nothing *)

Lemma rounds_app before middle after calls1 calls2 evs1 evs2 :
  rounds before calls1 evs1 middle ->
  rounds middle calls2 evs2 after ->
  rounds before (calls1 ++ calls2) (evs1 ++ evs2) after.
Proof.
  induction 1 as [|? ? ? ? ? ? ? ? ? Hargs extended Hrest IH]; intros Hnext; simpl.
  - exact Hnext.
  - now apply rounds_step; [|apply IH].
Qed.

Lemma dispatch_returns (message : llm_message) (tc : tool_call) (st st' : locals)
    (h evs : list event) :
  dispatch message tc st h = (inl st', evs) ->
  exists tool_args result answer,
    let name := fn_name (tc_function tc) in
    let extended :=
      (messages st ++ [Turn "assistant" (or_empty (msg_content message));
                       Turn "user" (tool_response_text result)])%list in
    json_loads (fn_arguments (tc_function tc)) = inl tool_args
    /\ evs = [Call_tool name tool_args (inl result);
              Completion (Request model extended None 1000) (inl answer)]
    /\ st' = Locals extended
                    (tool_results st ++ [(name, result)])
                    ((final_text st ++ [calling_line name tool_args])
                     ++ first_content answer).
Proof.
  unfold dispatch, bind, lift, call_tool, complete, ret.
  destruct (json_loads _) as [tool_args|]; simpl; [|discriminate].
  destruct (session_call_tool _ _ _) as [result|]; simpl; [|discriminate].
  destruct (completion _ _) as [answer|]; simpl; [|discriminate].
  intros [= <- <-]. now exists tool_args, result, answer.
Qed.

Lemma dispatch_all_returns (message : llm_message) (tcs : list tool_call)
    (st st' : locals) (h evs : list event) :
  dispatch_all message tcs st h = (inl st', evs) ->
  rounds (messages st) (map (pair message) tcs) evs (messages st')
  /\ exists lines,
       final_text st' = (final_text st ++ lines)%list
       /\ forall rest, round_lines tcs (evs ++ rest) = (lines, rest).
Proof.
  revert st h evs; induction tcs as [|tc tcs IH]; intros st h evs; simpl.
  - intros [= <- <-]. split; [constructor|].
    exists []. now rewrite app_nil_r.
  - intros Hrun. apply bind_returns in Hrun as (st1 & evs1 & evs2 & H1 & H2 & ->).
    destruct (dispatch_returns _ _ _ _ _ _ H1)
      as (tool_args & result & answer & Hargs & Hevs & Hst).
    cbv zeta in Hevs, Hst. subst evs1 st1. clear H1.
    apply IH in H2 as [Hrounds (lines & Hlines & Hread)]. simpl in *.
    split; [now apply rounds_step|].
    exists (calling_line (fn_name (tc_function tc)) tool_args
            :: first_content answer ++ lines)%list.
    split.
    + rewrite Hlines, <- !app_assoc. reflexivity.
    + intros rest. now rewrite Hread.
Qed.

Lemma visit_choice_returns (ch : choice) (st st' : locals) (h evs : list event) :
  visit_choice ch st h = (inl st', evs) ->
  let message := choice_message ch in
  rounds (messages st) (map (pair message) (requested_by message)) evs (messages st')
  /\ exists lines,
       final_text st' = (final_text st ++ own_content message ++ lines)%list
       /\ forall rest, round_lines (requested_by message) (evs ++ rest) = (lines, rest).
Proof.
  unfold visit_choice, requested_by, own_content.
  destruct (msg_tool_calls (choice_message ch)) as [tcs|].
  - intros Hrun. apply dispatch_all_returns in Hrun as [Hrounds (lines & Hlines & Hread)].
    destruct (str_truthy _); simpl in *; (split; [exact Hrounds|]);
      exists lines; (split; [|exact Hread]);
      now rewrite Hlines, <- ?app_assoc.
  - intros [= <- <-]; simpl.
    destruct (str_truthy _); simpl; (split; [constructor|]);
      exists []; (split; [|reflexivity]); now rewrite ?app_nil_r.
Qed.

Lemma visit_choices_returns (chs : list choice) (st st' : locals) (h evs : list event) :
  visit_choices chs st h = (inl st', evs) ->
  rounds (messages st) (requested (Response chs)) evs (messages st')
  /\ final_text st' = (final_text st ++ transcript chs evs)%list.
Proof.
  unfold requested; simpl.
  revert st h evs; induction chs as [|ch chs IH]; intros st h evs; simpl.
  - intros [= <- <-]. split; [constructor | now rewrite app_nil_r].
  - intros Hrun. apply bind_returns in Hrun as (st1 & evs1 & evs2 & H1 & H2 & ->).
    apply visit_choice_returns in H1 as [Hrounds1 (lines & Hlines & Hread)].
    apply IH in H2 as [Hrounds2 Htext].
    split; [exact (rounds_app _ _ _ _ _ _ _ Hrounds1 Hrounds2)|].
    now rewrite Hread, Htext, Hlines, <- !app_assoc.
Qed.

Lemma query_returns (query text : string) (tools : list tool) (h : list event) :
  session_list_tools h = inl tools ->
  fst (process_query_try [Turn "user" query] (map available_tool tools)
         (h ++ [List_tools (inl tools)])%list) = inl text ->
  exists answer evs after,
    process_query query h
    = (inl text,
       List_tools (inl tools)
       :: Completion (Request model [Turn "user" query]
                              (Some (map available_tool tools)) 1000) (inl answer)
       :: evs)
    /\ rounds [Turn "user" query] (requested answer) evs after
    /\ text = String.concat nl (transcript (choices answer) evs).
Proof.
  intros Htools Htext.
  unfold process_query, bind, list_tools, try_except. rewrite Htools.
  destruct (process_query_try _ _ _) as [r evs] eqn:Hrun; simpl in *. subst r.
  unfold process_query_try in Hrun.
  apply bind_returns in Hrun as (answer & evs1 & evs2 & H1 & H2 & ->).
  apply bind_returns in H2 as (st & evs3 & evs4 & H3 & H4 & ->).
  unfold ret in H4.
  unfold complete in H1. destruct (completion _ _) as [answer'|] eqn:Hc;
    [|discriminate H1]. injection H1 as -> <-.
  injection H4 as <- <-.
  apply visit_choices_returns in H3 as [Hrounds Hlines]. simpl in *.
  destruct answer as [chs]; simpl in *.
  exists (Response chs), evs3, (messages st).
  rewrite app_nil_r, Hlines. auto.
Qed.

(** C5, as the code has it: when [process_query] raises nothing, the
    text it returns is [final_text] joined by line feeds, and
    [final_text] holds, for each choice of the first response in turn,
    the text of the choice and then, for each tool call of that choice,
    the line [[Calling tool <name> with args <args>]] followed by the
    text of the first choice of the answer the completion service gave
    after that call; empty texts are left out. *)
Theorem query_text_is_transcript (query text : string) (tools : list tool)
    (h : list event) :
  session_list_tools h = inl tools ->
  fst (process_query_try [Turn "user" query] (map available_tool tools)
         (h ++ [List_tools (inl tools)])%list) = inl text ->
  fst (process_query query h) = inl text
  /\ exists request answer evs,
       snd (process_query query h)
       = List_tools (inl tools) :: Completion request (inl answer) :: evs
       /\ text = String.concat nl (transcript (choices answer) evs).
Proof.
  intros Htools Htext.
  destruct (query_returns query text tools h Htools Htext)
    as (answer & evs & after & -> & _ & Hjoin).
  split; [reflexivity|]. now eexists _, answer, evs.
Qed.

(** C6, as the code has it: when [process_query] raises nothing, it
    calls the tools that the first response asks for, in the order the
    response lists them, and after each single call it appends two
    turns (the text of the asking message, or the empty text, as the
    assistant; the text of the tool result as the user) and sends the
    conversation to the completion service at once, before the next
    call of the round. *)
Theorem query_runs_in_rounds (query text : string) (tools : list tool)
    (h : list event) :
  session_list_tools h = inl tools ->
  fst (process_query_try [Turn "user" query] (map available_tool tools)
         (h ++ [List_tools (inl tools)])%list) = inl text ->
  exists answer evs after,
    snd (process_query query h)
    = List_tools (inl tools)
      :: Completion (Request model [Turn "user" query]
                             (Some (map available_tool tools)) 1000) (inl answer)
      :: evs
    /\ rounds [Turn "user" query] (requested answer) evs after.
Proof.
  intros Htools Htext.
  destruct (query_returns query text tools h Htools Htext)
    as (answer & evs & after & -> & Hrounds & _).
  now exists answer, evs, after.
Qed.

End Facts.

(** *** The client on the reference library and the example worlds *)

(** C4 at a call that times out: the query ends there. *)
Lemma tool_failure_ends_query_witness :
  snd World.timed_out
  = (firstn 2 (snd World.timed_out)
     ++ Call_tool "playback" (PDict [("action", PStr "pause")])
          (inr (Exc (ExceptionClass "TimeoutError") "Timed out while waiting for response"))
     :: [])%list
  /\ (@nil event = []
      /\ fst World.timed_out
         = inl ("Error processing query: "
                ++ exc_str (Exc (ExceptionClass "TimeoutError")
                                "Timed out while waiting for response"))).
Proof.
  assert (Hrun : snd World.timed_out
                 = (firstn 2 (snd World.timed_out)
                    ++ Call_tool "playback" (PDict [("action", PStr "pause")])
                         (inr (Exc (ExceptionClass "TimeoutError")
                                   "Timed out while waiting for response"))
                    :: [])%list) by reflexivity.
  exact (conj Hrun
           (@tool_failure_ends_query python World.slow_session (World.service [World.pause])
              "pause it" [] _ [] _ _ _ Hrun)).
Defined.

(** C4 fails as stated.  The call of the tool times out; the query
    returns the text of the error, nothing happens after the failed
    call, and the completion service was asked once only, before the
    call: it never sees the failure. *)
Lemma tool_failure_counterexample :
  fst World.timed_out
  = inl "Error processing query: Timed out while waiting for response"
  /\ after_failed_call (snd World.timed_out) = Some []
  /\ map is_call (snd World.timed_out) = [false; false; true].
Proof. repeat split. Qed.

(** C5 at the query with one call. *)
Lemma query_text_is_transcript_witness :
  @session_list_tools World.session [] = inl [World.playback_tool]
  /\ fst (@process_query_try python World.session (World.service [World.pause])
            [Turn "user" "pause it"] (map available_tool [World.playback_tool])
            ([] ++ [List_tools (inl [World.playback_tool])])%list)
     = inl ("[Calling tool playback with args {'action': 'pause'}]" ++ nl ++ "Done.")
  /\ fst World.one_call
     = inl ("[Calling tool playback with args {'action': 'pause'}]" ++ nl ++ "Done.")
  /\ exists request answer evs,
       snd World.one_call
       = List_tools (inl [World.playback_tool]) :: Completion request (inl answer) :: evs
       /\ ("[Calling tool playback with args {'action': 'pause'}]" ++ nl ++ "Done.")
          = String.concat nl (@transcript python (choices answer) evs).
Proof.
  exact (conj eq_refl (conj eq_refl
           (@query_text_is_transcript python World.session (World.service [World.pause])
              "pause it" _ [World.playback_tool] [] eq_refl eq_refl))).
Defined.

(** C5 fails as stated.  The only free text the completion service
    produced is [Done.], and the query returns two lines: the line
    that announces the call, then [Done.].  No way of joining the free
    texts gives that. *)
Lemma query_text_counterexample :
  completion_texts (snd World.one_call) = ["Done."]
  /\ fst World.one_call
     = inl ("[Calling tool playback with args {'action': 'pause'}]" ++ nl ++ "Done.")
  /\ (forall sep,
        fst World.one_call
        <> inl (String.concat sep (completion_texts (snd World.one_call)))).
Proof.
  repeat split. intros sep. vm_compute. discriminate.
Qed.

(** C6 at the query with two calls in one response. *)
Lemma query_runs_in_rounds_witness :
  @session_list_tools World.session [] = inl [World.playback_tool]
  /\ fst (@process_query_try python World.session
            (World.service [World.pause; World.show_queue])
            [Turn "user" "pause it"] (map available_tool [World.playback_tool])
            ([] ++ [List_tools (inl [World.playback_tool])])%list)
     = inl (String.concat nl
              ["[Calling tool playback with args {'action': 'pause'}]"; "Done.";
               "[Calling tool queue with args {}]"; "Done."])
  /\ exists answer evs after,
       snd World.two_calls
       = List_tools (inl [World.playback_tool])
         :: Completion (Request model [Turn "user" "pause it"]
                                (Some (map available_tool [World.playback_tool])) 1000)
                       (inl answer)
         :: evs
       /\ @rounds python [Turn "user" "pause it"] (requested answer) evs after.
Proof.
  exact (conj eq_refl (conj eq_refl
           (@query_runs_in_rounds python World.session
              (World.service [World.pause; World.show_queue])
              "pause it" _ [World.playback_tool] [] eq_refl eq_refl))).
Defined.

(** C6 fails as stated.  The first response asks for two calls; the
    events of the query are: the tools listed, the completion, the
    first call, a completion, the second call, a completion.  The
    completion service is asked again between the two calls of the
    round. *)
Lemma query_rounds_counterexample :
  length (requested (World.ask [World.pause; World.show_queue])) = 2
  /\ map is_call (snd World.two_calls) = [false; false; true; false; true; false]
  /\ completion_between_calls (snd World.two_calls) = true.
Proof. repeat split. Qed.

End ClientFacts.

(* ================================================================== *)
(** ** The tools: the paths that reach the Spotify client *)
(* ================================================================== *)

Module ServerMore.

Import Server Views.

#[local] Arguments String.append : simpl never.

(** Unfolds a tool down to the events it emits. *)
Ltac run_tools :=
  unfold serves, rejects_missing, forwards, refuses, run_tool,
    playback, playback_try, search, search_try,
    queue, queue_try, get_info, get_info_try, playlist, playlist_try,
    decode_track_ids, report, logger_info, logger_error, call,
    try_except, catching, bind, lift, emit, ret, py_not;
  simpl.

(** Splits on the next test or outcome the run depends on. *)
Ltac next_case :=
  match goal with
  | |- context [String.eqb ?a ?b] => destruct (String.eqb a b) eqn:?
  | |- context [py_truthy ?v] => destruct (py_truthy v) eqn:?
  | |- context [spotify_client ?h ?c] => destruct (spotify_client h c) eqn:?
  | |- context [match ?v with PStr _ => _ | _ => _ end] => destruct v
  | |- context [json_loads ?t] => destruct (json_loads t) eqn:?
  | |- context [py_get ?a ?b ?c] => destruct (py_get a b c) eqn:?
  | |- context [json_dumps ?v] => destruct (json_dumps v) eqn:?
  | |- context [is_JSONDecodeError ?e] => destruct (is_JSONDecodeError e) eqn:?
  end; simpl.

(** Closes a goal about which events are in a list of events. *)
Ltac which_event :=
  repeat match goal with
         | H : In _ _ |- _ => simpl in H
         | H : _ \/ _ |- _ => destruct H
         | H : False |- _ => destruct H
         | H : Log _ _ = Backend _ _ |- _ => discriminate H
         | H : Backend _ _ = Backend _ _ |- _ => injection H; clear H; intros; subst
         end.

(** Closes what is left once the events are known. *)
Ltac settle :=
  try reflexivity; intros; which_event;
  repeat match goal with
         | E : json_dumps _ = _ |- _ => rewrite E
         | E : inl _ = inl _ |- _ => injection E; clear E; intros; subst
         end;
  try reflexivity; try discriminate; try congruence.

Section Facts.

Context {lib : PyLib} {client : SpotifyClient}.

(** X1: a required argument given a value that Python takes for false
    (the empty string as well as [None]) is treated as missing: the
    text names the argument as required and the Spotify client is not
    called. *)
Theorem falsy_argument_rejected (x : pyval) (h : list event) :
  py_truthy x = false ->
  rejects_missing "track_id" (queue "add" x h)
  /\ (forall track_ids name description,
        Forall (fun action =>
                  rejects_missing "playlist_id"
                    (playlist action x track_ids name description h))
               ["get_tracks"; "add_tracks"; "remove_tracks"; "change_details"])
  /\ (forall playlist_id name description,
        Forall (fun action =>
                  rejects_missing "track_ids"
                    (playlist action playlist_id x name description h))
               ["add_tracks"; "remove_tracks"]).
Proof.
  intros Hx.
  split; [|split]; intros; repeat constructor; run_tools; rewrite Hx;
    rewrite ?orb_true_r; simpl;
    (eexists; repeat split; reflexivity).
Qed.

(** X2: the three commands of [playback] are not validated: [start]
    calls [start_playback] with the [spotify_uri] it was given (also
    [None]), [pause] calls [pause_playback], [skip] calls [skip_track]
    with [num_skips]; each calls the Spotify client once and, the call
    having returned, answers with its fixed text. *)
Theorem playback_commands_forward (spotify_uri num_skips : pyval) (h : list event) :
  forwards (Start_playback spotify_uri) "Playback starting."
           (playback "start" spotify_uri num_skips h)
  /\ forwards Pause_playback "Playback paused."
              (playback "pause" spotify_uri num_skips h)
  /\ forwards (Skip_track num_skips) "Skipped to next track."
              (playback "skip" spotify_uri num_skips h).
Proof.
  repeat split; run_tools; repeat next_case;
    settle.
Qed.

(** X3: [queue] with action [add] and a [track_id] that is not empty
    calls [add_to_queue] once with that [track_id] and, the call having
    returned, answers [Track added to queue.]. *)
Theorem queue_add_forwards (track_id : pyval) (h : list event) :
  py_truthy track_id = true ->
  forwards (Add_to_queue track_id) "Track added to queue." (queue "add" track_id h).
Proof.
  intros Ht. split; run_tools; rewrite Ht; simpl; repeat next_case;
    settle.
Qed.

(** X4: [search], [get_info], [queue] with action [get] and [playlist]
    with action [get] call the Spotify client exactly once, with the
    arguments they were given, and answer with [json.dumps] of what it
    returned (with [Error: ] and the message when [json.dumps]
    raises). *)
Theorem lookups_return_json (h : list event) :
  (forall query qtype limit,
      serves (Search_items query qtype limit) (search query qtype limit h))
  /\ (forall item_uri, serves (Get_item_info item_uri) (get_info item_uri h))
  /\ (forall track_id, serves Get_queue (queue "get" track_id h))
  /\ (forall playlist_id track_ids name description,
        serves Get_current_user_playlists
               (playlist "get" playlist_id track_ids name description h)).
Proof.
  repeat split; run_tools; repeat next_case;
    settle.
Qed.

(** X5: [playlist] with action [get_tracks] and a [playlist_id] that is
    not empty calls [get_playlist_tracks] once with that id and answers
    with [json.dumps] of the tracks. *)
Theorem playlist_tracks_returned (playlist_id track_ids name description : pyval)
    (h : list event) :
  py_truthy playlist_id = true ->
  serves (Get_playlist_tracks playlist_id)
         (playlist "get_tracks" playlist_id track_ids name description h).
Proof.
  intros Hp. split; run_tools; rewrite Hp; simpl; repeat next_case;
    settle.
Qed.

(** X6: [playback] with action [get], when the current track is a dict
    that is not empty, answers with [json.dumps] of the dict, and logs
    the value of its key [name], or [Unknown] when the dict has no such
    key. *)
Theorem current_track_returned (spotify_uri num_skips : pyval)
    (entries : list (string * pyval)) (h : list event) :
  entries <> [] ->
  In (Backend Get_current_track (inl (PDict entries)))
     (snd (playback "get" spotify_uri num_skips h)) ->
  serves Get_current_track (playback "get" spotify_uri num_skips h)
  /\ In (Log INFO ("Current track retrieved: "
                   ++ py_str (dict_get entries "name" (PStr "Unknown"))))
        (snd (playback "get" spotify_uri num_skips h)).
Proof.
  intros Hne. run_tools.
  destruct (spotify_client _ Get_current_track) as [v|e]; simpl.
  - destruct (py_truthy v) eqn:Hv; simpl.
    + destruct (py_get v "name" (PStr "Unknown")) as [shown|e] eqn:Hg; simpl.
      * destruct (json_dumps v) as [text|e] eqn:Hd; simpl; intros Hin;
          (assert (v = PDict entries) as -> by (which_event; congruence));
          simpl in Hg; injection Hg as <-;
          (split; [split; [reflexivity|]|simpl; tauto]);
          clear Hin; intros v' Hin'; which_event; try discriminate;
          now rewrite Hd.
      * intros Hin.
        assert (v = PDict entries) as -> by (which_event; congruence).
        discriminate Hg.
    + intros Hin.
      assert (v = PDict entries) as -> by (which_event; congruence).
      destruct entries; [contradiction | discriminate Hv].
  - intros Hin. which_event. discriminate.
Qed.

(** X7: no tool calls the Spotify client more than once in a call. *)
Theorem at_most_one_backend_call (c : tool_call) (h : list event) :
  (length (backend_calls (snd (run_tool c h))) <= 1)%nat.
Proof.
  destruct c; run_tools; repeat next_case; auto.
Qed.

(** X8: a [track_ids] that is not a string (a list, say) and that
    Python takes for true is not decoded: with a [playlist_id] that is
    not empty, [add_tracks] and [remove_tracks] pass it to the Spotify
    client as it is. *)
Theorem track_ids_object_forwarded (playlist_id track_ids name description : pyval)
    (h : list event) :
  py_truthy playlist_id = true ->
  py_truthy track_ids = true ->
  (forall s, track_ids <> PStr s) ->
  forwards (Add_tracks_to_playlist playlist_id track_ids) "Tracks added to playlist."
           (playlist "add_tracks" playlist_id track_ids name description h)
  /\ forwards (Remove_tracks_from_playlist playlist_id track_ids)
              "Tracks removed from playlist."
              (playlist "remove_tracks" playlist_id track_ids name description h).
Proof.
  intros Hp Ht Hs.
  destruct track_ids; try (now elim (Hs s));
    repeat split; run_tools; rewrite Hp; simpl in Ht |- *; rewrite ?Ht; simpl;
    repeat next_case; settle.
Qed.

End Facts.

(** *** The paths on the reference library *)

(** X1 at the empty string. *)
Lemma falsy_argument_rejected_witness :
  py_truthy (PStr EmptyString) = false
  /\ rejects_missing "track_id" (@queue python idle_spotify "add" (PStr EmptyString) [])
  /\ (forall track_ids name description,
        Forall (fun action =>
                  rejects_missing "playlist_id"
                    (@playlist python idle_spotify action (PStr EmptyString)
                               track_ids name description []))
               ["get_tracks"; "add_tracks"; "remove_tracks"; "change_details"])
  /\ (forall playlist_id name description,
        Forall (fun action =>
                  rejects_missing "track_ids"
                    (@playlist python idle_spotify action playlist_id (PStr EmptyString)
                               name description []))
               ["add_tracks"; "remove_tracks"]).
Proof.
  exact (conj eq_refl
           (@falsy_argument_rejected python idle_spotify (PStr EmptyString) [] eq_refl)).
Defined.

(** X3 at a track. *)
Lemma queue_add_forwards_witness :
  py_truthy (PStr "spotify:track:1") = true
  /\ forwards (Add_to_queue (PStr "spotify:track:1")) "Track added to queue."
              (@queue python idle_spotify "add" (PStr "spotify:track:1") []).
Proof.
  exact (conj eq_refl
           (@queue_add_forwards python idle_spotify (PStr "spotify:track:1") [] eq_refl)).
Defined.

(** X5 at a playlist. *)
Lemma playlist_tracks_returned_witness :
  py_truthy (PStr "p1") = true
  /\ @serves python (Get_playlist_tracks (PStr "p1"))
       (@playlist python playing_spotify "get_tracks" (PStr "p1") PNone PNone PNone []).
Proof.
  exact (conj eq_refl
           (@playlist_tracks_returned python playing_spotify (PStr "p1") PNone PNone PNone []
              eq_refl)).
Defined.

(** X6 at a client on which a track is playing. *)
Lemma current_track_returned_witness :
  [("name", PStr "Bohemian Rhapsody"); ("artist", PStr "Queen")] <> []
  /\ In (Backend Get_current_track
           (inl (PDict [("name", PStr "Bohemian Rhapsody"); ("artist", PStr "Queen")])))
        (snd (@playback python playing_spotify "get" PNone (PInt 1) []))
  /\ @serves python Get_current_track (@playback python playing_spotify "get" PNone (PInt 1) [])
  /\ In (Log INFO "Current track retrieved: Bohemian Rhapsody")
        (snd (@playback python playing_spotify "get" PNone (PInt 1) [])).
Proof.
  assert (Hne : [("name", PStr "Bohemian Rhapsody"); ("artist", PStr "Queen")] <> [])
    by discriminate.
  assert (Hin : In (Backend Get_current_track
                      (inl (PDict [("name", PStr "Bohemian Rhapsody");
                                   ("artist", PStr "Queen")])))
                   (snd (@playback python playing_spotify "get" PNone (PInt 1) [])))
    by (right; left; reflexivity).
  exact (conj Hne (conj Hin
           (@current_track_returned python playing_spotify PNone (PInt 1) _ [] Hne Hin))).
Defined.

(** X8 at a list of two tracks. *)
Lemma track_ids_object_forwarded_witness :
  py_truthy (PStr "p1") = true
  /\ py_truthy (PList [PStr "t1"; PStr "t2"]) = true
  /\ (forall s, PList [PStr "t1"; PStr "t2"] <> PStr s)
  /\ forwards (Add_tracks_to_playlist (PStr "p1") (PList [PStr "t1"; PStr "t2"]))
              "Tracks added to playlist."
              (@playlist python idle_spotify "add_tracks" (PStr "p1")
                         (PList [PStr "t1"; PStr "t2"]) PNone PNone [])
  /\ forwards (Remove_tracks_from_playlist (PStr "p1") (PList [PStr "t1"; PStr "t2"]))
              "Tracks removed from playlist."
              (@playlist python idle_spotify "remove_tracks" (PStr "p1")
                         (PList [PStr "t1"; PStr "t2"]) PNone PNone []).
Proof.
  assert (Hs : forall s, PList [PStr "t1"; PStr "t2"] <> PStr s) by discriminate.
  exact (conj eq_refl (conj eq_refl (conj Hs
           (@track_ids_object_forwarded python idle_spotify (PStr "p1")
              (PList [PStr "t1"; PStr "t2"]) PNone PNone [] eq_refl eq_refl Hs)))).
Defined.

End ServerMore.

(* ================================================================== *)
(** ** The client: failures, and which tools a query calls *)
(* ================================================================== *)

Module ClientMore.

Import Client Views.



Lemma bind_run {E A B} (m : M E A) (f : A -> M E B) (h : list E) a evs :
  m h = (inl a, evs) ->
  bind m f h = (fst (f a (h ++ evs)%list), (evs ++ snd (f a (h ++ evs)%list))%list).
Proof.
  intros Hm. unfold bind. rewrite Hm. now destruct (f a (h ++ evs)%list).
Qed.

Section Facts.

Context {lib : PyLib} {session : Session} {service : CompletionService}.

(** *** An interaction that raises is the last one *)

Lemma ends_ret {A} (a : A) : ends_at_failure (ret a).
Proof. intros h [|x pre] ev e post Heq; discriminate Heq. Qed.

Lemma ends_lift {A} (r : result A) : ends_at_failure (lift r).
Proof. intros h [|x pre] ev e post Heq; discriminate Heq. Qed.

Lemma ends_single {A} (m : C A) (record : result A -> event) :
  (forall h, snd (m h) = [record (fst (m h))]) ->
  (forall r e, failure (record r) = Some e -> r = inr e) ->
  ends_at_failure m.
Proof.
  intros Hone Hfail h pre ev e post Heq Hev. rewrite Hone in Heq.
  destruct pre as [|ev' pre]; simpl in Heq.
  - injection Heq as Hrec Hpost. subst ev post.
    split; [reflexivity|]. now apply Hfail.
  - injection Heq as _ Heq. now destruct pre.
Qed.

Lemma ends_list_tools : ends_at_failure list_tools.
Proof.
  apply (ends_single _ List_tools); [reflexivity|].
  intros [v|e'] e0; simpl; congruence.
Qed.

Lemma ends_complete (request : completion_request) : ends_at_failure (complete request).
Proof.
  apply (ends_single _ (Completion request)); [reflexivity|].
  intros [v|e'] e0; simpl; congruence.
Qed.

Lemma ends_call_tool (name : string) (args : pyval) : ends_at_failure (call_tool name args).
Proof.
  apply (ends_single _ (Call_tool name args)); [reflexivity|].
  intros [v|e'] e0; simpl; congruence.
Qed.

Lemma ends_bind {A B} (m : C A) (f : A -> C B) :
  ends_at_failure m -> (forall a, ends_at_failure (f a)) -> ends_at_failure (bind m f).
Proof.
  intros Hm Hf h pre ev e post. unfold bind.
  specialize (Hm h). destruct (m h) as [[a|e0] evs] eqn:Hrun; simpl in *.
  - specialize (Hf a (h ++ evs)%list).
    destruct (f a (h ++ evs)%list) as [r evs']; simpl in *.
    intros Heq Hev. apply app_eq_app in Heq as [l [[E1 E2]|[E1 E2]]].
    + destruct l as [|ev' l]; simpl in E2.
      * apply (Hf [] ev e post); [now rewrite <- E2 | exact Hev].
      * injection E2 as <- E2.
        destruct (Hm pre ev e l E1 Hev) as [_ Habs]. discriminate.
    + apply (Hf l ev e post E2 Hev).
  - intros Heq Hev. destruct (Hm pre ev e post Heq Hev) as [-> [= ->]]. auto.
Qed.

Lemma ends_dispatch_all (message : llm_message) (tcs : list tool_call) (st : locals) :
  ends_at_failure (dispatch_all message tcs st).
Proof.
  revert st; induction tcs as [|tc tcs IH]; intros st; simpl.
  - apply ends_ret.
  - apply ends_bind; [|intros st'; apply IH].
    unfold dispatch.
    repeat (apply ends_bind; [|intros ?]);
      auto using ends_lift, ends_call_tool, ends_complete, ends_ret.
Qed.

Lemma ends_visit_choices (chs : list choice) (st : locals) :
  ends_at_failure (visit_choices chs st).
Proof.
  revert st; induction chs as [|ch chs IH]; intros st; simpl.
  - apply ends_ret.
  - apply ends_bind; [|intros st'; apply IH].
    unfold visit_choice.
    destruct (msg_tool_calls (choice_message ch)); [apply ends_dispatch_all | apply ends_ret].
Qed.

Lemma ends_process_query_try (messages0 : list turn) (available_tools : list pyval) :
  ends_at_failure (process_query_try messages0 available_tools).
Proof.
  unfold process_query_try.
  apply ends_bind; [apply ends_complete | intros response].
  apply ends_bind; [apply ends_visit_choices | intros st; apply ends_ret].
Qed.

(** X9: when a call of the completion service raises, the first one or
    one that follows a tool call, [process_query] does nothing more and
    returns the text [Error processing query: ] followed by the message
    of the exception; the call is not tried again. *)
Theorem completion_failure_ends_query (query : string) (h pre post : list event)
    (request : completion_request) (e : exn) :
  snd (process_query query h) = (pre ++ Completion request (inr e) :: post)%list ->
  post = []
  /\ fst (process_query query h) = inl ("Error processing query: " ++ exc_str e).
Proof.
  unfold process_query, bind, list_tools.
  destruct (session_list_tools h) as [tools|e0]; simpl.
  - unfold try_except.
    pose proof (ends_process_query_try [Turn "user" query] (map available_tool tools)
                  (h ++ [List_tools (inl tools)])%list) as Hend.
    destruct (process_query_try _ _ _) as [[text|e1] evs]; simpl in *;
      rewrite ?app_nil_r;
      (destruct pre as [|ev pre]; simpl; intros Heq; [discriminate Heq|]);
      injection Heq as _ Heq;
      destruct (Hend pre _ e post Heq eq_refl) as [-> Hr].
    + discriminate Hr.
    + injection Hr as ->. auto.
  - destruct pre as [|ev pre]; simpl; intros Heq; [discriminate Heq|].
    injection Heq as _ Heq. now destruct pre.
Qed.

(** X10: [process_query] raises exactly when [session.list_tools()]
    raises, which it calls before its [try] block; it then raises the
    same exception, and the completion service was not called. *)
Theorem query_raises_with_list_tools (query : string) (h : list event) (e : exn) :
  (fst (process_query query h) = inr e <-> session_list_tools h = inr e)
  /\ (session_list_tools h = inr e ->
      snd (process_query query h) = [List_tools (inr e)]).
Proof.
  unfold process_query, bind, list_tools, try_except.
  destruct (session_list_tools h) as [tools|e0]; simpl.
  - destruct (process_query_try _ _ _) as [[text|e1] evs]; simpl;
      (split; [split|]; discriminate).
  - split; [split|]; congruence.
Qed.

(** *** A response that asks for no tool *)

Lemma visit_choices_without_calls (chs : list choice) (st : locals) (h : list event) :
  requested (Response chs) = [] ->
  visit_choices chs st h
  = (inl (Locals (messages st) (tool_results st)
                 (final_text st
                  ++ flat_map (fun ch => own_content (choice_message ch)) chs)%list),
     []).
Proof.
  unfold requested; simpl.
  revert st h; induction chs as [|ch chs IH]; intros st h Hnone; simpl.
  - rewrite app_nil_r. now destruct st.
  - simpl in Hnone. apply app_eq_nil in Hnone as [Hch Hrest].
    apply map_eq_nil in Hch.
    assert (Hvisit : visit_choice ch st h
                     = (inl (Locals (messages st) (tool_results st)
                               (final_text st ++ own_content (choice_message ch))%list),
                        [])).
    { unfold visit_choice, requested_by, own_content in *.
      destruct (msg_tool_calls (choice_message ch)) as [tcs|]; [subst tcs|];
        (destruct (str_truthy _); simpl; [reflexivity|]);
        rewrite app_nil_r; now destruct st. }
    rewrite (bind_run _ _ _ _ _ Hvisit), (IH _ _ Hrest). simpl.
    now rewrite <- app_assoc.
Qed.

(** X11: when the first response asks for no tool, [process_query]
    calls the completion service that once and no tool, and returns the
    texts of the choices of that response, the empty ones left out,
    joined by line feeds (for a response with one choice: its text). *)
Theorem query_without_calls (query : string) (tools : list tool) (answer : response)
    (h : list event) :
  session_list_tools h = inl tools ->
  completion (h ++ [List_tools (inl tools)])%list
             (Request model [Turn "user" query] (Some (map available_tool tools)) 1000)
  = inl answer ->
  requested answer = [] ->
  process_query query h
  = (inl (String.concat nl
            (flat_map (fun ch => own_content (choice_message ch)) (choices answer))),
     [List_tools (inl tools);
      Completion (Request model [Turn "user" query] (Some (map available_tool tools)) 1000)
                 (inl answer)]).
Proof.
  intros Htools Hanswer Hnone.
  unfold process_query, bind at 1, list_tools, try_except. rewrite Htools.
  unfold process_query_try, bind at 1, complete. rewrite Hanswer.
  destruct answer as [chs]. simpl in *.
  unfold bind. rewrite (visit_choices_without_calls chs _ _ Hnone). reflexivity.
Qed.

(** *** Arguments that do not decode *)

Lemma visit_choices_undecodable (chs : list choice) (st : locals) (h : list event)
    (m : llm_message) (tc : tool_call) (rest : list (llm_message * tool_call)) (e : exn) :
  requested (Response chs) = (m, tc) :: rest ->
  json_loads (fn_arguments (tc_function tc)) = inr e ->
  visit_choices chs st h = (inr e, []).
Proof.
  unfold requested; simpl.
  revert st h; induction chs as [|ch chs IH]; intros st h Hreq Hargs; simpl in *;
    [discriminate|].
  destruct (requested_by (choice_message ch)) as [|tc' tcs] eqn:Hby; simpl in Hreq.
  - assert (Hnone : requested (Response [ch]) = [])
      by (unfold requested; simpl; now rewrite Hby).
    pose proof (visit_choices_without_calls [ch] st h Hnone) as Hvisit.
    simpl in Hvisit. unfold bind in Hvisit |- *.
    destruct (visit_choice ch st h) as [[st1|e1] evs1]; [|discriminate].
    simpl in Hvisit. rewrite app_nil_r in Hvisit. injection Hvisit as _ ->.
    now rewrite (IH st1 _ Hreq Hargs).
  - injection Hreq as <- <- _.
    unfold visit_choice, requested_by in *.
    destruct (msg_tool_calls (choice_message ch)) as [tcs'|]; [|discriminate].
    subst tcs'. simpl. unfold bind, dispatch, bind, lift. now rewrite Hargs.
Qed.

(** X12: when the arguments of the first tool call that the first
    response asks for are not valid JSON, [process_query] calls no tool at
    all and returns [Error processing query: ] followed by the message
    of the exception of [json.loads]. *)
Theorem undecodable_arguments_end_query (query : string) (tools : list tool)
    (answer : response) (m : llm_message) (tc : tool_call)
    (rest : list (llm_message * tool_call)) (e : exn) (h : list event) :
  session_list_tools h = inl tools ->
  completion (h ++ [List_tools (inl tools)])%list
             (Request model [Turn "user" query] (Some (map available_tool tools)) 1000)
  = inl answer ->
  requested answer = (m, tc) :: rest ->
  json_loads (fn_arguments (tc_function tc)) = inr e ->
  process_query query h
  = (inl ("Error processing query: " ++ exc_str e),
     [List_tools (inl tools);
      Completion (Request model [Turn "user" query] (Some (map available_tool tools)) 1000)
                 (inl answer)]).
Proof.
  intros Htools Hanswer Hreq Hargs.
  unfold process_query, bind at 1, list_tools, try_except. rewrite Htools.
  unfold process_query_try, bind at 1, complete. rewrite Hanswer.
  destruct answer as [chs]. simpl in *.
  unfold bind. now rewrite (visit_choices_undecodable chs _ _ m tc rest e Hreq Hargs).
Qed.

(** *** Which tools a query calls *)








End Facts.

(** *** The client in the example worlds *)

(** X9 at a completion service out of reach. *)
Lemma completion_failure_ends_query_witness :
  snd (@process_query python World.session Scenes.no_service "play something" [])
  = ([List_tools (inl [World.playback_tool])]
     ++ Completion (Request model [Turn "user" "play something"]
                            (Some (map available_tool [World.playback_tool])) 1000)
                   (inr (Exc (ExceptionClass "APIConnectionError") "Connection error."))
     :: [])%list
  /\ (@nil event = []
      /\ fst (@process_query python World.session Scenes.no_service "play something" [])
         = inl ("Error processing query: "
                ++ exc_str (Exc (ExceptionClass "APIConnectionError") "Connection error."))).
Proof.
  exact (conj eq_refl
           (@completion_failure_ends_query python World.session Scenes.no_service
              "play something" [] _ [] _ _ eq_refl)).
Defined.

(** X11 at a completion service that only talks. *)
Lemma query_without_calls_witness :
  @session_list_tools World.session [] = inl [World.playback_tool]
  /\ @completion Scenes.talker ([] ++ [List_tools (inl [World.playback_tool])])%list
       (Request model [Turn "user" "what is playing?"]
                (Some (map available_tool [World.playback_tool])) 1000)
     = inl (World.say "Nothing is playing.")
  /\ requested (World.say "Nothing is playing.") = []
  /\ fst (@process_query python World.session Scenes.talker "what is playing?" [])
     = inl "Nothing is playing.".
Proof.
  exact (conj eq_refl (conj eq_refl (conj eq_refl
           (f_equal fst
              (@query_without_calls python World.session Scenes.talker "what is playing?"
                 [World.playback_tool] (World.say "Nothing is playing.") []
                 eq_refl eq_refl eq_refl))))).
Defined.

(** X12 at arguments that stop after the opening brace. *)
Lemma undecodable_arguments_end_query_witness :
  @session_list_tools World.session [] = inl [World.playback_tool]
  /\ @completion (World.service [Scenes.cut_short])
       ([] ++ [List_tools (inl [World.playback_tool])])%list
       (Request model [Turn "user" "pause it"]
                (Some (map available_tool [World.playback_tool])) 1000)
     = inl (World.ask [Scenes.cut_short])
  /\ requested (World.ask [Scenes.cut_short])
     = [(Message None (Some [Scenes.cut_short]), Scenes.cut_short)]
  /\ @json_loads python (fn_arguments (tc_function Scenes.cut_short))
     = inr (Exc JSONDecodeError "Expecting value")
  /\ fst (@process_query python World.session (World.service [Scenes.cut_short])
            "pause it" [])
     = inl "Error processing query: Expecting value".
Proof.
  exact (conj eq_refl (conj eq_refl (conj eq_refl (conj eq_refl
           (f_equal fst
              (@undecodable_arguments_end_query python World.session
                 (World.service [Scenes.cut_short]) "pause it" [World.playback_tool]
                 (World.ask [Scenes.cut_short]) _ Scenes.cut_short [] _ []
                 eq_refl eq_refl eq_refl eq_refl)))))).
Defined.


End ClientMore.

(* ================================================================== *)
(** ** The test harness and the life of a connection *)
(* ================================================================== *)

Module HarnessFacts.

Import Client Harness.

Lemma session_history_app (evs1 evs2 : list event) :
  session_history (evs1 ++ evs2) = (session_history evs1 ++ session_history evs2)%list.
Proof.
  induction evs1 as [|[t|ev] evs1 IH]; simpl; now rewrite ?IH.
Qed.

Lemma tools_called_app (evs1 evs2 : list event) :
  tools_called (evs1 ++ evs2) = (tools_called evs1 ++ tools_called evs2)%list.
Proof.
  induction evs1 as [|[t|[o|r o|n a o]] evs1 IH]; simpl; now rewrite ?IH.
Qed.

Lemma py_take_prefix (n : nat) (s : string) : prefix_of (py_take n s) s.
Proof.
  revert n; induction s as [|c s IH]; intros n; simpl.
  - now exists EmptyString.
  - destruct (is_continuation c).
    + destruct (IH n) as [rest Hrest]. exists rest. simpl. now rewrite <- Hrest.
    + destruct n as [|n]; [now exists (String c s)|].
      destruct (IH n) as [rest Hrest]. exists rest. simpl. now rewrite <- Hrest.
Qed.

Lemma py_len_take (n : nat) (s : string) : py_len (py_take n s) = Nat.min n (py_len s).
Proof.
  revert n; induction s as [|c s IH]; intros n; simpl.
  - now rewrite Nat.min_0_r.
  - destruct (is_continuation c) eqn:Hc; simpl; rewrite ?Hc.
    + apply IH.
    + destruct n as [|n]; simpl; [reflexivity|]. now rewrite Hc, IH.
Qed.

#[local] Arguments String.append : simpl never.

Section Facts.

Context {lib : PyLib} {session : Session}.

(** X14: [test_tool] never raises and calls the tool exactly once, with
    the arguments it was given.  It returns the text of the result of
    the call (the text of its first content item), or, when the call
    raises, [Error: ] followed by the message of the exception. *)
Theorem test_tool_answers (tool_name : string) (arguments : pyval) (h : list event) :
  fst (test_tool tool_name arguments h)
  = inl (match session_call_tool (session_history h) tool_name arguments with
         | inl result => tool_response_text result
         | inr e => "Error: " ++ exc_str e
         end)
  /\ tools_called (snd (test_tool tool_name arguments h)) = [(tool_name, arguments)].
Proof.
  unfold test_tool, test_tool_try, try_except, bind, call_tool, print, emit, ret. simpl.
  rewrite session_history_app, app_nil_r.
  now destruct (session_call_tool _ _ _).
Qed.

(** X15: when the call of the tool returns, [test_tool] returns the
    whole text of the response but prints one line for it that shows
    the text in full only if it has at most 200 characters; a longer
    text is cut to its first 200 characters followed by three dots. *)
Theorem test_tool_shows_beginning (tool_name : string) (arguments : pyval)
    (result : call_tool_result) (h : list event) :
  In (Session_event (Call_tool tool_name arguments (inl result)))
     (snd (test_tool tool_name arguments h)) ->
  fst (test_tool tool_name arguments h) = inl (tool_response_text result)
  /\ In (Print (response_line (tool_response_text result)))
        (snd (test_tool tool_name arguments h))
  /\ ((py_len (tool_response_text result) <= 200)%nat ->
      response_line (tool_response_text result)
      = "📄 Response: " ++ tool_response_text result)
  /\ ((200 < py_len (tool_response_text result))%nat ->
      exists shown,
        response_line (tool_response_text result) = "📄 Response: " ++ shown ++ "..."
        /\ prefix_of shown (tool_response_text result)
        /\ py_len shown = 200).
Proof.
  unfold test_tool, test_tool_try, try_except, bind, call_tool, print, emit, ret. simpl.
  destruct (session_call_tool _ _ _) as [result'|e]; simpl; intros Hin.
  - assert (result' = result) as ->
      by (destruct Hin as [E|[E|[E|[E|[]]]]]; try discriminate E; now injection E).
    split; [reflexivity|]. split; [tauto|].
    unfold response_line. split; intros Hlen.
    + apply Nat.ltb_ge in Hlen. now rewrite Hlen.
    + pose proof Hlen as Hlt. apply Nat.ltb_lt in Hlen. rewrite Hlen.
      exists (py_take 200 (tool_response_text result)).
      split; [reflexivity|]. split; [apply py_take_prefix|].
      rewrite py_len_take. lia.
  - destruct Hin as [E|[E|[E|[]]]]; discriminate E.
Qed.

(** *** The suite *)

Lemma returns_print {A} (text : string) (calls : list (string * pyval)) (m : IO A) :
  returns_calling calls m -> returns_calling calls (bind (print text) (fun _ => m)).
Proof.
  intros Hm h. unfold bind, print, emit.
  destruct (Hm (h ++ [Print text])%list) as (a & evs & -> & Hc).
  now exists a, (Print text :: evs).
Qed.

Lemma returns_test {A} (t : string * pyval) (calls : list (string * pyval)) (m : IO A) :
  returns_calling calls m -> returns_calling (t :: calls) (bind (test t) (fun _ => m)).
Proof.
  intros Hm h. unfold bind, test.
  destruct (test_tool_answers (fst t) (snd t) h) as [Hr Hc].
  destruct (test_tool (fst t) (snd t) h) as [r evs]; simpl in *. subst r.
  destruct (Hm (h ++ evs)%list) as (a & evs' & -> & Hc').
  exists a, (evs ++ evs')%list. split; [reflexivity|].
  rewrite tools_called_app, Hc, Hc'. now destruct t.
Qed.

Lemma ending_print {A} (text : string) (ev : event) (m : IO A) :
  returns_ending ev m -> returns_ending ev (bind (print text) (fun _ => m)).
Proof.
  intros Hm h. unfold bind, print, emit.
  destruct (Hm (h ++ [Print text])%list) as (a & evs & ->).
  now exists a, (Print text :: evs).
Qed.

Lemma ending_test {A} (t : string * pyval) (ev : event) (m : IO A) :
  returns_ending ev m -> returns_ending ev (bind (test t) (fun _ => m)).
Proof.
  intros Hm h. unfold bind, test.
  destruct (test_tool_answers (fst t) (snd t) h) as [Hr _].
  destruct (test_tool (fst t) (snd t) h) as [r evs]; simpl in *. subst r.
  destruct (Hm (h ++ evs)%list) as (a & evs' & ->).
  exists a, (evs ++ evs')%list. now rewrite app_assoc.
Qed.

Lemma returns_last_print (text : string) : returns_calling [] (print text).
Proof. intros h. now exists tt, [Print text]. Qed.

Lemma ending_last_print (text : string) : returns_ending (Print text) (print text).
Proof. intros h. now exists tt, []. Qed.

(** X16: [test_all_tools] never raises and always calls the same seven
    tools with the same arguments in the same order, whether the calls
    succeed or not: [playback] (get, pause, start), [search], [queue]
    (get), [get_info], [playlist] (get).  It always ends by printing
    [All tests completed!], also when every call failed. *)
Theorem test_all_tools_runs_all (h : list event) :
  fst (test_all_tools h) = inl tt
  /\ tools_called (snd (test_all_tools h))
     = [playback_get; playback_pause; playback_start; search_song; queue_get;
        get_info_song; playlist_get]
  /\ exists evs,
       snd (test_all_tools h) = (evs ++ [Print (nl ++ "✅ All tests completed!")])%list.
Proof.
  assert (Hcalls : returns_calling
                     [playback_get; playback_pause; playback_start; search_song;
                      queue_get; get_info_song; playlist_get] test_all_tools_try)
    by (unfold test_all_tools_try;
        repeat first [apply returns_print | apply returns_test | apply returns_last_print]).
  assert (Hend : returns_ending (Print (nl ++ "✅ All tests completed!")) test_all_tools_try)
    by (unfold test_all_tools_try;
        repeat first [apply ending_print | apply ending_test | apply ending_last_print]).
  unfold test_all_tools, bind, print, emit, try_except. simpl.
  match goal with
  | |- context [test_all_tools_try ?h'] =>
      destruct (Hcalls h') as (a & evs & Hrun & Hc);
      destruct (Hend h') as (a' & evs' & Hrun')
  end.
  rewrite Hrun in Hrun' |- *. injection Hrun' as _ ->. simpl.
  destruct a. repeat split; [exact Hc|].
  now exists (Print (nl ++ "🚀 Starting Spotify MCP Tool Tests")
              :: Print (py_repeat "=" 50) :: evs').
Qed.

End Facts.

(** X15 at a response of 300 characters. *)
Lemma test_tool_shows_beginning_witness :
  In (Session_event
        (Call_tool "playback" (PDict [("action", PStr "get")])
           (inl (CallToolResult [TextContent (py_repeat "la" 150)]))))
     (snd (@test_tool python Scenes.wordy_session "playback"
             (PDict [("action", PStr "get")]) []))
  /\ fst (@test_tool python Scenes.wordy_session "playback"
            (PDict [("action", PStr "get")]) [])
     = inl (py_repeat "la" 150)
  /\ In (Print (response_line (py_repeat "la" 150)))
        (snd (@test_tool python Scenes.wordy_session "playback"
                (PDict [("action", PStr "get")]) []))
  /\ ((py_len (py_repeat "la" 150) <= 200)%nat ->
      response_line (py_repeat "la" 150) = "📄 Response: " ++ py_repeat "la" 150)
  /\ ((200 < py_len (py_repeat "la" 150))%nat ->
      exists shown,
        response_line (py_repeat "la" 150) = "📄 Response: " ++ shown ++ "..."
        /\ prefix_of shown (py_repeat "la" 150)
        /\ py_len shown = 200).
Proof.
  assert (Hin : In (Session_event
                      (Call_tool "playback" (PDict [("action", PStr "get")])
                         (inl (CallToolResult [TextContent (py_repeat "la" 150)]))))
                   (snd (@test_tool python Scenes.wordy_session "playback"
                           (PDict [("action", PStr "get")]) [])))
    by (right; left; reflexivity).
  exact (conj Hin
           (@test_tool_shows_beginning python Scenes.wordy_session "playback"
              (PDict [("action", PStr "get")])
              (CallToolResult [TextContent (py_repeat "la" 150)]) [] Hin)).
Defined.

(** The suite on a session where every call times out: the seven
    tools are called all the same. *)
Example suite_on_slow_session :
  tools_called (snd (@test_all_tools python World.slow_session []))
  = [playback_get; playback_pause; playback_start; search_song; queue_get;
     get_info_song; playlist_get]
  /\ length (printed (snd (@test_all_tools python World.slow_session []))) = 27.
Proof. split; reflexivity. Qed.

End HarnessFacts.

Module LifecycleFacts.

Import Client Lifecycle.

#[local] Arguments String.append : simpl never.

(** Unfolds the two methods down to the events they emit. *)
Ltac run_methods :=
  unfold connect_then_cleanup, connect_to_sse_server, cleanup,
    next, act, print, assign, attribute, done;
  simpl.

Section Facts.

Context {lib : PyLib} {transport : Transport}.

(** X17: after a [connect_to_sse_server] that returned, both contexts
    and the session are set, and [cleanup], whenever it is called,
    leaves the session context first and then the streams context, the
    reverse of the order in which they were entered; if leaving the
    session context raises, [cleanup] raises that exception and the
    streams context is not left. *)
Theorem cleanup_after_connect (server_url : string) (self self' : client)
    (h evs h' : list event) :
  connect_to_sse_server server_url self h = (inl tt, self', evs) ->
  self' = Self true true true
  /\ cleanup self' h'
     = match session_aexit h' with
       | inl u =>
           (streams_aexit (h' ++ [Session_aexit (inl u)])%list, self',
            [Session_aexit (inl u);
             Streams_aexit (streams_aexit (h' ++ [Session_aexit (inl u)])%list)])
       | inr e => (inr e, self', [Session_aexit (inr e)])
       end.
Proof.
  run_methods.
  destruct (streams_aenter _ _); simpl; [|discriminate].
  destruct (session_aenter _); simpl; [|discriminate].
  destruct (initialize _); simpl; [|discriminate].
  destruct (list_tools _); simpl; [|discriminate].
  intros [= <- _]. split; [reflexivity|]. simpl. rewrite !app_nil_r.
  now destruct (session_aexit h').
Qed.

(** X18: when entering the streams context raises on a new client (no
    server answers), [connect_to_sse_server] raises that exception with
    [_streams_context] already set, so the [cleanup] that [main] runs
    next leaves the streams context, which was never entered, and does
    nothing else. *)
Theorem cleanup_after_failed_streams (server_url : string) (e : exn) (h : list event) :
  streams_aenter (h ++ [Print ("🔌 Connecting to SSE server at: " ++ server_url)])%list
                 server_url = inr e ->
  let h' := (h ++ [Print ("🔌 Connecting to SSE server at: " ++ server_url);
                   Streams_aenter server_url (inr e)])%list in
  connect_to_sse_server server_url fresh h
  = (inr e, Self true false false,
     [Print ("🔌 Connecting to SSE server at: " ++ server_url);
      Streams_aenter server_url (inr e)])
  /\ connect_then_cleanup server_url fresh h
     = (inr e, streams_aexit h', Self true false false, [Streams_aexit (streams_aexit h')]).
Proof.
  intros He. run_methods. rewrite app_nil_r, He. simpl.
  rewrite !app_nil_r. split; reflexivity.
Qed.

(** X19: when the streams context is entered and entering the session
    context raises, [connect_to_sse_server] raises that exception with
    both contexts set and no session, and the [cleanup] that follows
    leaves the session context, which was never entered, before the
    streams context. *)
Theorem cleanup_after_failed_session (server_url : string) (e : exn) (h : list event) :
  let h1 := (h ++ [Print ("🔌 Connecting to SSE server at: " ++ server_url)])%list in
  let h2 := (h1 ++ [Streams_aenter server_url (inl tt)])%list in
  let h3 := (h2 ++ [Session_aenter (inr e)])%list in
  streams_aenter h1 server_url = inl tt ->
  session_aenter h2 = inr e ->
  connect_then_cleanup server_url fresh h
  = match session_aexit h3 with
    | inl u =>
        (inr e, streams_aexit (h3 ++ [Session_aexit (inl u)])%list, Self true true false,
         [Session_aexit (inl u);
          Streams_aexit (streams_aexit (h3 ++ [Session_aexit (inl u)])%list)])
    | inr e' => (inr e, inr e', Self true true false, [Session_aexit (inr e')])
    end.
Proof.
  intros h1 h2 h3 Hs He. subst h1 h2 h3. run_methods.
  rewrite app_nil_r, Hs. simpl. rewrite app_nil_r, He. simpl.
  rewrite !app_nil_r, <- !app_assoc. simpl.
  destruct (session_aexit _) as [u|e']; simpl; rewrite <- ?app_assoc; reflexivity.
Qed.

End Facts.

(** X17 on a transport on which everything works. *)
Lemma cleanup_after_connect_witness :
  @connect_to_sse_server python Scenes.transport "http://localhost:8080/sse" fresh []
  = (inl tt, Self true true true,
     snd (@connect_to_sse_server python Scenes.transport "http://localhost:8080/sse" fresh []))
  /\ Self true true true = Self true true true
  /\ @cleanup Scenes.transport (Self true true true) []
     = (inl tt, Self true true true, [Session_aexit (inl tt); Streams_aexit (inl tt)]).
Proof.
  exact (conj eq_refl
           (@cleanup_after_connect python Scenes.transport "http://localhost:8080/sse"
              fresh (Self true true true) [] _ [] eq_refl)).
Defined.

(** X18 on a transport that finds no server. *)
Lemma cleanup_after_failed_streams_witness :
  @streams_aenter Scenes.no_server
    ([] ++ [Print ("🔌 Connecting to SSE server at: " ++ "http://localhost:8080/sse")])%list
    "http://localhost:8080/sse"
  = inr (Exc (ExceptionClass "ConnectError") "All connection attempts failed")
  /\ snd (@connect_then_cleanup python Scenes.no_server "http://localhost:8080/sse" fresh [])
     = [Streams_aexit (inl tt)].
Proof.
  exact (conj eq_refl
           (f_equal snd
              (proj2 (@cleanup_after_failed_streams python Scenes.no_server
                        "http://localhost:8080/sse" _ [] eq_refl)))).
Defined.

(** X19 on a transport on which the session cannot be entered. *)
Lemma cleanup_after_failed_session_witness :
  @streams_aenter Scenes.no_session
    ([] ++ [Print ("🔌 Connecting to SSE server at: " ++ "http://localhost:8080/sse")])%list
    "http://localhost:8080/sse"
  = inl tt
  /\ @session_aenter Scenes.no_session
       (([] ++ [Print ("🔌 Connecting to SSE server at: " ++ "http://localhost:8080/sse")])
        ++ [Streams_aenter "http://localhost:8080/sse" (inl tt)])%list
     = inr (Exc (ExceptionClass "RuntimeError") "session refused")
  /\ snd (@connect_then_cleanup python Scenes.no_session "http://localhost:8080/sse" fresh [])
     = [Session_aexit (inl tt); Streams_aexit (inl tt)].
Proof.
  exact (conj eq_refl (conj eq_refl
           (f_equal snd
              (@cleanup_after_failed_session python Scenes.no_session
                 "http://localhost:8080/sse" _ [] eq_refl eq_refl)))).
Defined.

End LifecycleFacts.
